(** * Reddit persona card: extraction and layout

    A shallow embedding of [main.py]: the clean-up of the generated text
    ([generate_persona_with_gemini]), the recovery of the JSON payload
    ([parse_persona_data_from_json]), the defaulted field reads and the
    cursor-driven drawing of the card ([generate_persona_image] with its
    inner [draw_bullet_section]), and the test in [main] between the two.

    Conventions of the embedding.
    - A Python [str] is a [string]; each [ascii] is one code point in the
      range U+0000..U+00FF (not a UTF-8 byte).
    - Python integers are [Z]; [find]/[rfind] answer [-1] for "absent", as
      in the source.
    - A Python value obtained from [json.loads] is a [pyval]; a [dict] is an
      association list in insertion order with unique keys.
    - Library code that is not part of the repository is a parameter:
      [json.loads] ([json_loads]), the body font's metric behind
      [drawer.textbbox] ([text_width]) and the [str()] conversion applied by
      f-string interpolation ([py_str]).  A small executable JSON reader
      ([json_loads_model]) and a fixed-pitch metric ([fixed_pitch]) are
      given to run the definitions on concrete inputs. *)

From Stdlib Require Import ZArith List String Ascii Bool Lia.
Import ListNotations.
Local Open Scope string_scope.
Local Open Scope Z_scope.
Set Warnings "-register-all".

(* ================================================================= *)
(** ** Python values *)

Inductive pyval : Type :=
| PNone
| PBool (b : bool)
| PInt (n : Z)
| PStr (s : string)
| PList (l : list pyval)
| PDict (d : list (string * pyval)).

Definition dict := list (string * pyval).

(** Exceptions that the modelled code can raise and does not catch. *)
Inductive exn : Type := AttributeError | TypeError.

(** [bool(v)], as tested by [if v:] and [if not v:]. *)
Definition truthy (v : pyval) : bool :=
  match v with
  | PNone => false
  | PBool b => b
  | PInt n => negb (n =? 0)
  | PStr s => negb (String.eqb s "")
  | PList l => match l with [] => false | _ :: _ => true end
  | PDict d => match d with [] => false | _ :: _ => true end
  end.

(** [d.get(key, default)] on a dict. *)
Fixpoint dict_get (d : dict) (key : string) (default : pyval) : pyval :=
  match d with
  | [] => default
  | (k, v) :: d' => if String.eqb k key then v else dict_get d' key default
  end.

(** [d[key] = v]: an existing key keeps its position and takes the new
    value, a new key is appended. *)
Fixpoint dict_set (d : dict) (key : string) (v : pyval) : dict :=
  match d with
  | [] => [(key, v)]
  | (k, w) :: d' =>
      if String.eqb k key then (k, v) :: d' else (k, w) :: dict_set d' key v
  end.

(** [v.get(key, default)] on an arbitrary value: only dicts have [get]. *)
Definition py_get (v : pyval) (key : string) (default : pyval) : exn + pyval :=
  match v with
  | PDict d => inr (dict_get d key default)
  | _ => inl AttributeError
  end.

(** The elements visited by [for x in v]: the items of a list, the
    one-character strings of a str, the keys of a dict. *)
Fixpoint chars (s : string) : list pyval :=
  match s with
  | EmptyString => []
  | String c s' => PStr (String c EmptyString) :: chars s'
  end.

Definition py_iter (v : pyval) : exn + list pyval :=
  match v with
  | PList l => inr l
  | PStr s => inr (chars s)
  | PDict d => inr (map (fun kv => PStr (fst kv)) d)
  | PNone | PBool _ | PInt _ => inl TypeError
  end.

(* ================================================================= *)
(** ** Python string operations *)

(** [c.isspace()] for a code point below U+0100: TAB..CR, FS..US, SPACE,
    NEL and NBSP. *)
Definition is_space (c : ascii) : bool :=
  let n := N_of_ascii c in
  ((9 <=? n) && (n <=? 13) || (28 <=? n) && (n <=? 32)
   || (n =? 133) || (n =? 160))%N.

Fixpoint lstrip (s : string) : string :=
  match s with
  | EmptyString => EmptyString
  | String c s' => if is_space c then lstrip s' else s
  end.

Fixpoint rstrip (s : string) : string :=
  match s with
  | EmptyString => EmptyString
  | String c s' =>
      match rstrip s' with
      | EmptyString => if is_space c then EmptyString else String c EmptyString
      | r => String c r
      end
  end.

(** [s.strip()] *)
Definition strip (s : string) : string := rstrip (lstrip s).

(** [s.split(sep)] for a one-character separator: never empty, and an
    empty field between two adjacent separators is kept. *)
Fixpoint split (sep : ascii) (s : string) : list string :=
  match s with
  | EmptyString => [EmptyString]
  | String c s' =>
      if Ascii.eqb c sep then EmptyString :: split sep s'
      else match split sep s' with
           | w :: ws => String c w :: ws
           | [] => [String c EmptyString]
           end
  end.

(** [sep.join(words)] *)
Definition join (sep : string) (words : list string) : string :=
  String.concat sep words.

(** [s.find(c)] and [s.rfind(c)] for a one-character needle. *)
Fixpoint find_from (c : ascii) (s : string) (i : Z) : Z :=
  match s with
  | EmptyString => -1
  | String a s' => if Ascii.eqb a c then i else find_from c s' (i + 1)
  end.

Definition find (c : ascii) (s : string) : Z := find_from c s 0.

Fixpoint rfind_from (c : ascii) (s : string) (i : Z) : Z :=
  match s with
  | EmptyString => -1
  | String a s' =>
      let r := rfind_from c s' (i + 1) in
      if r =? -1 then (if Ascii.eqb a c then i else -1) else r
  end.

Definition rfind (c : ascii) (s : string) : Z := rfind_from c s 0.

(** Slice bounds: a negative index counts from the end, and every index is
    clamped to [0..len]. *)
Definition slice_index (len i : Z) : Z :=
  if i <? 0 then Z.max 0 (i + len) else Z.min i len.

(** [s[start:stop]]; [None] is an omitted bound. *)
Definition py_slice (s : string) (start stop : option Z) : string :=
  let len := Z.of_nat (String.length s) in
  let a := match start with Some i => slice_index len i | None => 0 end in
  let b := match stop with Some j => slice_index len j | None => len end in
  substring (Z.to_nat a) (Z.to_nat (b - a)) s.

Definition startswith (s p : string) : bool := String.prefix p s.

Definition endswith (s p : string) : bool :=
  let n := String.length s in
  let m := String.length p in
  (m <=? n)%nat && String.eqb (substring (n - m) m s) p.

(* ================================================================= *)
(** ** Extractor *)

(** Lines 141-145 of [generate_persona_with_gemini]: the clean-up applied
    to [response.text]. *)
Definition clean_response (response_text : string) : string :=
  let persona_raw_text := strip response_text in
  let persona_raw_text :=
    if startswith persona_raw_text "```json"
    then py_slice persona_raw_text (Some 7) None
    else persona_raw_text in
  let persona_raw_text :=
    if endswith persona_raw_text "```"
    then py_slice persona_raw_text None (Some (-3))
    else persona_raw_text in
  persona_raw_text.

(** Lines 156-159 of [parse_persona_data_from_json]. *)
Definition isolate_payload (json_string : string) : string :=
  let start_brace := find "{" json_string in
  let end_brace := rfind "}" json_string in
  if negb (start_brace =? -1) && negb (end_brace =? -1)
  then py_slice json_string (Some start_brace) (Some (end_brace + 1))
  else json_string.

(** What [json.loads] does on a text: a value, [json.JSONDecodeError], or
    any other exception. *)
Inductive loads_result : Type :=
| Loaded (v : pyval)
| JSONDecodeError
| OtherException.

(** The three exits of [parse_persona_data_from_json].  [MalformedPayload]
    is the [except json.JSONDecodeError] branch; it carries the excerpt
    [json_string[:500]] that the branch prints. *)
Inductive parse_outcome : Type :=
| Parsed (persona_data : pyval)
| MalformedPayload (excerpt : string)
| UnexpectedError.

Definition parse_persona_data_from_json
    (json_loads : string -> loads_result) (json_string : string)
  : parse_outcome :=
  let json_string := isolate_payload json_string in
  match json_loads json_string with
  | Loaded persona_data => Parsed persona_data
  | JSONDecodeError => MalformedPayload (py_slice json_string None (Some 500))
  | OtherException => UnexpectedError
  end.

(** The value the Python function hands back: the parsed value, or [None]
    on either [except] branch. *)
Definition returned (o : parse_outcome) : pyval :=
  match o with
  | Parsed persona_data => persona_data
  | MalformedPayload _ | UnexpectedError => PNone
  end.

(** [extract]: clean-up followed by parsing. *)
Definition extract (json_loads : string -> loads_result) (response_text : string)
  : parse_outcome :=
  parse_persona_data_from_json json_loads (clean_response response_text).


(** The rest of [main] after the generation call (lines 311-326):
    [persona_raw_text] is [None] when the call raised.  The renderer is a
    parameter here; [main_tail] below plugs in [generate_persona_image]. *)
Inductive run_outcome (R : Type) : Type :=
| GenerationFailed
| ParsingFailureReported
| RenderCalled (rendering : R).

Arguments GenerationFailed {R}.
Arguments ParsingFailureReported {R}.
Arguments RenderCalled {R} rendering.

Definition run_pipeline {R : Type}
    (json_loads : string -> loads_result) (render : pyval -> R)
    (persona_raw_text : option string) : run_outcome R :=
  match persona_raw_text with
  | Some text =>
      if truthy (PStr text) then
        let persona_data :=
          returned (parse_persona_data_from_json json_loads text) in
        if truthy persona_data then RenderCalled (render persona_data)
        else ParsingFailureReported
      else GenerationFailed
  | None => GenerationFailed
  end.

(* ================================================================= *)
(** ** A JSON reader to run the extractor

    [json_loads_model] follows the scanner of Python's [json] module on the
    part of the grammar that needs no floating point: objects (a repeated
    key keeps its last value), arrays, strings with the simple escapes and
    [\u00XX], integers, [true], [false], [null], and blanks between tokens.
    A number with a fraction or an exponent, [NaN], [Infinity] and a [\u]
    escape above U+00FF denote values this embedding does not represent;
    they are reported as [NotModelled]. *)

Inductive scan (A : Type) : Type :=
| Got (a : A) (rest : string)
| Bad
| NotModelled.

Arguments Got {A} a rest.
Arguments Bad {A}.
Arguments NotModelled {A}.

Definition dquote : ascii := "034"%char.

Definition is_json_blank (c : ascii) : bool :=
  (c =? " ")%char || (c =? "009")%char || (c =? "010")%char || (c =? "013")%char.

Fixpoint skip_blanks (s : string) : string :=
  match s with
  | String c s' => if is_json_blank c then skip_blanks s' else s
  | EmptyString => s
  end.

Definition is_digit (c : ascii) : bool :=
  let n := N_of_ascii c in ((48 <=? n) && (n <=? 57))%N.

Definition hex_digit (c : ascii) : option N :=
  let n := N_of_ascii c in
  if ((48 <=? n) && (n <=? 57))%N then Some (n - 48)%N
  else if ((65 <=? n) && (n <=? 70))%N then Some (n - 55)%N
  else if ((97 <=? n) && (n <=? 102))%N then Some (n - 87)%N
  else None.

Definition simple_escape (c : ascii) : option ascii :=
  if (c =? dquote)%char then Some dquote
  else if (c =? "\")%char then Some "\"%char
  else if (c =? "/")%char then Some "/"%char
  else if (c =? "b")%char then Some "008"%char
  else if (c =? "f")%char then Some "012"%char
  else if (c =? "n")%char then Some "010"%char
  else if (c =? "r")%char then Some "013"%char
  else if (c =? "t")%char then Some "009"%char
  else None.

(** The body of a string literal, after its opening quote. *)
Fixpoint scan_string (s : string) : scan string :=
  match s with
  | EmptyString => Bad
  | String c s' =>
      if (c =? dquote)%char then Got EmptyString s'
      else if (c =? "\")%char then
        match s' with
        | String e s'' =>
            if (e =? "u")%char then
              match s'' with
              | String h1 (String h2 (String h3 (String h4 s4))) =>
                  match hex_digit h1, hex_digit h2, hex_digit h3, hex_digit h4 with
                  | Some a, Some b, Some c3, Some d =>
                      if ((a =? 0) && (b =? 0))%N then
                        match scan_string s4 with
                        | Got str rest =>
                            Got (String (ascii_of_N (16 * c3 + d)) str) rest
                        | other => other
                        end
                      else NotModelled
                  | _, _, _, _ => Bad
                  end
              | _ => Bad
              end
            else
              match simple_escape e with
              | Some x =>
                  match scan_string s'' with
                  | Got str rest => Got (String x str) rest
                  | other => other
                  end
              | None => Bad
              end
        | EmptyString => Bad
        end
      else if (N_of_ascii c <? 32)%N then Bad
      else
        match scan_string s' with
        | Got str rest => Got (String c str) rest
        | other => other
        end
  end.

Fixpoint scan_digits (s : string) (acc : Z) : Z * string :=
  match s with
  | String c s' =>
      if is_digit c
      then scan_digits s' (10 * acc + (Z.of_N (N_of_ascii c) - 48))
      else (acc, s)
  | EmptyString => (acc, s)
  end.

(** Does a fraction or an exponent follow the integer part? *)
Definition float_tail (s : string) : bool :=
  match s with
  | String c (String d s') =>
      if (c =? ".")%char then is_digit d
      else if (c =? "e")%char || (c =? "E")%char then
        is_digit d
        || (((d =? "+")%char || (d =? "-")%char)
            && match s' with String d' _ => is_digit d' | EmptyString => false end)
      else false
  | _ => false
  end.

Definition scan_number (s : string) : scan pyval :=
  let '(negative, s1) :=
    match s with
    | String c s' => if (c =? "-")%char then (true, s') else (false, s)
    | EmptyString => (false, s)
    end in
  match s1 with
  | String c s' =>
      if is_digit c then
        let '(n, rest) := if (c =? "0")%char then (0, s') else scan_digits s1 0 in
        if float_tail rest then NotModelled
        else Got (PInt (if negative then - n else n)) rest
      else if negative && String.prefix "Infinity" s1 then NotModelled
      else Bad
  | EmptyString => Bad
  end.

Definition scan_literal (s : string) : scan pyval :=
  if String.prefix "null" s then Got PNone (py_slice s (Some 4) None)
  else if String.prefix "true" s then Got (PBool true) (py_slice s (Some 4) None)
  else if String.prefix "false" s then Got (PBool false) (py_slice s (Some 5) None)
  else if String.prefix "NaN" s || String.prefix "Infinity" s then NotModelled
  else scan_number s.

Fixpoint scan_value (fuel : nat) (s : string) {struct fuel} : scan pyval :=
  match fuel with
  | O => NotModelled
  | S fuel' =>
      match s with
      | EmptyString => Bad
      | String c s' =>
          if (c =? "{")%char then
            match skip_blanks s' with
            | String c1 s1 =>
                if (c1 =? "}")%char then Got (PDict []) s1
                else scan_members fuel' (String c1 s1) []
            | EmptyString => Bad
            end
          else if (c =? "[")%char then
            match skip_blanks s' with
            | String c1 s1 =>
                if (c1 =? "]")%char then Got (PList []) s1
                else scan_elements fuel' (String c1 s1) []
            | EmptyString => Bad
            end
          else if (c =? dquote)%char then
            match scan_string s' with
            | Got str rest => Got (PStr str) rest
            | Bad => Bad
            | NotModelled => NotModelled
            end
          else scan_literal s
      end
  end

with scan_elements (fuel : nat) (s : string) (acc : list pyval) {struct fuel}
  : scan pyval :=
  match fuel with
  | O => NotModelled
  | S fuel' =>
      match scan_value fuel' s with
      | Got v rest =>
          match skip_blanks rest with
          | String c s' =>
              if (c =? "]")%char then Got (PList (acc ++ [v])) s'
              else if (c =? ",")%char
              then scan_elements fuel' (skip_blanks s') (acc ++ [v])
              else Bad
          | EmptyString => Bad
          end
      | Bad => Bad
      | NotModelled => NotModelled
      end
  end

with scan_members (fuel : nat) (s : string) (acc : dict) {struct fuel}
  : scan pyval :=
  match fuel with
  | O => NotModelled
  | S fuel' =>
      match s with
      | String q s0 =>
          if negb (q =? dquote)%char then Bad else
          match scan_string s0 with
          | Got key s1 =>
              match skip_blanks s1 with
              | String c s2 =>
                  if negb (c =? ":")%char then Bad else
                  match scan_value fuel' (skip_blanks s2) with
                  | Got v s3 =>
                      match skip_blanks s3 with
                      | String c' s4 =>
                          if (c' =? "}")%char
                          then Got (PDict (dict_set acc key v)) s4
                          else if (c' =? ",")%char
                          then scan_members fuel' (skip_blanks s4) (dict_set acc key v)
                          else Bad
                      | EmptyString => Bad
                      end
                  | Bad => Bad
                  | NotModelled => NotModelled
                  end
              | EmptyString => Bad
              end
          | Bad => Bad
          | NotModelled => NotModelled
          end
      | EmptyString => Bad
      end
  end.

(** [json.loads]: blanks, one value, blanks, and nothing more.  The fuel
    is twice the length of the text and two more, one unit a call of the
    three readers; running out is reported like an unmodelled text. *)
Definition json_loads_model (s : string) : loads_result :=
  match scan_value (2 * String.length s + 2) (skip_blanks s) with
  | Got v rest =>
      match skip_blanks rest with
      | EmptyString => Loaded v
      | String _ _ => JSONDecodeError
      end
  | Bad => JSONDecodeError
  | NotModelled => OtherException
  end.

(** JSON texts are written below with an apostrophe where the text has a
    double quote. *)
Fixpoint json_text (s : string) : string :=
  match s with
  | EmptyString => EmptyString
  | String c s' => String (if (c =? "'")%char then dquote else c) (json_text s')
  end.

(* ================================================================= *)
(** ** The persona record and its defaulted reads

    The source has no separate normalising function: the record is read
    where it is drawn, each read with its default.  [normalize] collects
    those reads, in the form the renderer performs them. *)

(** Sequencing of reads that may raise. *)
Definition and_then {A B : Type} (r : exn + A) (k : A -> exn + B) : exn + B :=
  match r with
  | inl e => inl e
  | inr a => k a
  end.

Record Observation : Type := {
  item : pyval;
  citation_url : pyval
}.

Record PersonaRecord : Type := {
  persona_name : pyval;
  estimated_age : pyval;
  occupation : pyval;
  status : pyval;
  likely_location : pyval;
  archetype : pyval;
  mbti_personality : pyval;
  frustrations : list Observation;
  likings : list Observation;
  motivations : list Observation;
  behavior_habits : list Observation;
  goals_needs : list Observation
}.

(** Lines 248-249: the two reads made of one list element. *)
Definition read_observation (item_data : pyval) : exn + Observation :=
  and_then (py_get item_data "item" (PStr "N/A")) (fun item_text =>
  and_then (py_get item_data "citation_url" (PStr EmptyString)) (fun citation =>
  inr {| item := item_text; citation_url := citation |})).

Fixpoint read_observations (elements : list pyval) : exn + list Observation :=
  match elements with
  | [] => inr []
  | item_data :: elements' =>
      and_then (read_observation item_data) (fun o =>
      and_then (read_observations elements') (fun os => inr (o :: os)))
  end.

(** Lines 243 and 247: a falsy [items] is drawn as the empty section,
    anything else is iterated. *)
Definition read_section (items : pyval) : exn + list Observation :=
  if negb (truthy items) then inr []
  else and_then (py_iter items) read_observations.

Definition read_scalar (persona_data : pyval) (key : string) : exn + pyval :=
  py_get persona_data key (PStr "N/A").

Definition read_list (persona_data : pyval) (key : string)
  : exn + list Observation :=
  and_then (py_get persona_data key (PList [])) read_section.

(** The reads of lines 220, 227-232 and 278-282, in that order. *)
Definition normalize (persona_data : pyval) : exn + PersonaRecord :=
  and_then (read_scalar persona_data "persona_name") (fun name =>
  and_then (read_scalar persona_data "estimated_age") (fun age =>
  and_then (read_scalar persona_data "occupation") (fun occ =>
  and_then (read_scalar persona_data "status") (fun sta =>
  and_then (read_scalar persona_data "likely_location") (fun loc =>
  and_then (read_scalar persona_data "archetype") (fun arc =>
  and_then (read_scalar persona_data "mbti_personality") (fun mbti =>
  and_then (read_list persona_data "frustrations") (fun fru =>
  and_then (read_list persona_data "likings") (fun lik =>
  and_then (read_list persona_data "motivations") (fun mot =>
  and_then (read_list persona_data "behavior_habits") (fun beh =>
  and_then (read_list persona_data "goals_needs") (fun goa =>
  inr {| persona_name := name; estimated_age := age; occupation := occ;
         status := sta; likely_location := loc; archetype := arc;
         mbti_personality := mbti; frustrations := fru; likings := lik;
         motivations := mot; behavior_habits := beh;
         goals_needs := goa |})))))))))))).

(** The scalar and the list fields, each with its key. *)
Definition scalar_fields : list (string * (PersonaRecord -> pyval)) :=
  [ ("persona_name", persona_name);
    ("estimated_age", estimated_age);
    ("occupation", occupation);
    ("status", status);
    ("likely_location", likely_location);
    ("archetype", archetype);
    ("mbti_personality", mbti_personality) ].

Definition list_fields : list (string * (PersonaRecord -> list Observation)) :=
  [ ("frustrations", frustrations);
    ("likings", likings);
    ("motivations", motivations);
    ("behavior_habits", behavior_habits);
    ("goals_needs", goals_needs) ].

(** A record written back as the JSON object that has every key. *)
Definition observation_object (o : Observation) : pyval :=
  PDict [("item", item o); ("citation_url", citation_url o)].

Definition record_object (r : PersonaRecord) : pyval :=
  PDict (map (fun f => (fst f, snd f r)) scalar_fields
         ++ map (fun f => (fst f, PList (map observation_object (snd f r))))
              list_fields).

(** Shapes. *)
Definition is_str (v : pyval) : bool :=
  match v with PStr _ => true | _ => false end.

Definition is_nonempty_str (v : pyval) : bool :=
  match v with PStr s => negb (String.eqb s EmptyString) | _ => false end.

Definition well_formed_observation (o : Observation) : bool :=
  is_str (item o) && is_str (citation_url o).

Definition well_formed (r : PersonaRecord) : bool :=
  forallb (fun f => is_nonempty_str (snd f r)) scalar_fields
  && forallb (fun f => forallb well_formed_observation (snd f r)) list_fields.

Fixpoint has_key (d : dict) (key : string) : bool :=
  match d with
  | [] => false
  | (k, _) :: d' => String.eqb k key || has_key d' key
  end.

(** An object whose present values have the shapes the reads rely on: a
    scalar key holds a non-empty str; a list key holds a falsy value or a
    list of objects; [item] and [citation_url] hold a str. *)
Definition element_shaped (e : pyval) : bool :=
  match e with
  | PDict d =>
      is_str (dict_get d "item" (PStr "N/A"))
      && is_str (dict_get d "citation_url" (PStr EmptyString))
  | _ => false
  end.

Definition section_shaped (items : pyval) : bool :=
  negb (truthy items)
  || match items with
     | PList l => forallb element_shaped l
     | _ => false
     end.

Definition shaped (d : dict) : bool :=
  forallb (fun f => is_nonempty_str (dict_get d (fst f) (PStr "N/A")))
    scalar_fields
  && forallb (fun f => section_shaped (dict_get d (fst f) (PList [])))
       list_fields.

(* ================================================================= *)
(** ** Layout engine: the canvas and the drawing computations *)

Inductive font : Type :=
| font_title | font_name | font_header | font_body | font_small.

Definition color : Type := (Z * Z * Z)%type.

(** One call of [d.text((x, y), text, fill=..., font=...)]. *)
Record draw_op : Type := Text {
  at_x : Z;
  at_y : Z;
  content : string;
  fill : color;
  face : font
}.

Definition canvas : Type := list draw_op.

(** A drawing computation yields the operations it performed, in order,
    and either a value or the exception that stopped it; what was drawn
    before an exception stays drawn. *)
Definition M (A : Type) : Type := (canvas * (exn + A))%type.

Definition ret {A : Type} (a : A) : M A := ([], inr a).

Definition lift {A : Type} (r : exn + A) : M A := ([], r).

Definition bind {A B : Type} (m : M A) (k : A -> M B) : M B :=
  match m with
  | (ops, inl e) => (ops, inl e)
  | (ops, inr a) => let '(ops', r) := k a in ((ops ++ ops')%list, r)
  end.

Notation "x <- m ;; k" := (bind m (fun x => k))
  (at level 61, m at next level, right associativity).
Notation "m ;;; k" := (bind m (fun _ => k))
  (at level 61, right associativity).

(** [d.text]: Pillow draws a str and raises [TypeError] on anything else
    that JSON can produce. *)
Definition draw_text (x y : Z) (text : pyval) (fill : color) (f : font) : M unit :=
  match text with
  | PStr s => ([Text x y s fill f], inr tt)
  | _ => lift (inl TypeError)
  end.

(** [v.split(sep)]: only a str has [split]. *)
Definition py_split (v : pyval) (sep : ascii) : exn + list string :=
  match v with
  | PStr s => inr (split sep s)
  | _ => inl AttributeError
  end.

(** Image dimensions and colours (lines 183-188). *)
Definition width : Z := 800.
Definition height : Z := 1200.
Definition text_color : color := (50, 50, 50).
Definition header_color : color := (30, 30, 30).
Definition section_title_color : color := (70, 70, 70).
Definition accent_color : color := (100, 150, 255).

(** The bullet glyph U+2022.  It lies outside the code points of the
    embedding and is written here as the file encodes it; it is drawn but
    never measured or compared. *)
Definition bullet : string := "•".

(** The six labelled fields of the Basic Information block (lines 226-233). *)
Definition info_fields : list (string * string) :=
  [ ("Age: ", "estimated_age");
    ("Occupation: ", "occupation");
    ("Status: ", "status");
    ("Location: ", "likely_location");
    ("Archetype: ", "archetype");
    ("Personality: ", "mbti_personality") ].

Section Layout.

(** [text_width f s] is [bbox[2] - bbox[0]] for
    [drawer.textbbox((0,0), s, font=f)]. *)
Variable text_width : font -> string -> Z.

(** [py_str v] is [str(v)], the text an f-string puts for [{v}]. *)
Variable py_str : pyval -> string.

(** The loop of lines 255-263, and line 264. *)
Fixpoint wrap_words (measure : string -> Z) (max_width : Z)
    (words : list string) (wrapped_lines : list string)
    (current_line : string) : list string :=
  match words with
  | [] => (wrapped_lines ++ [current_line])%list
  | word :: words' =>
      let test_line := strip (current_line ++ " " ++ word) in
      if measure test_line <? max_width - 20
      then wrap_words measure max_width words' wrapped_lines test_line
      else wrap_words measure max_width words'
             (wrapped_lines ++ [current_line])%list word
  end.

(** Lines 252-264: the wrapped lines of an item text. *)
Definition wrap_text (measure : string -> Z) (max_width : Z)
    (item_text : string) : list string :=
  wrap_words measure max_width (split " " item_text) [] EmptyString.

(** Lines 266-269; [first] is [i == 0]. *)
Fixpoint draw_lines (x y : Z) (first : bool) (lines : list string)
    (body_font : font) (text_color : color) : M Z :=
  match lines with
  | [] => ret y
  | line :: lines' =>
      let prefix := if first then bullet ++ " " else "  " in
      draw_text (x + 10) y (PStr (prefix ++ line)) text_color body_font ;;;
      draw_lines x (y + 20) false lines' body_font text_color
  end.

(** The body of the loop over [items] (lines 248-273). *)
Definition draw_item (x y : Z) (item_data : pyval)
    (body_font : font) (text_color : color) (max_width : Z) : M Z :=
  o <- lift (read_observation item_data) ;;
  let item_text := item o in
  let citation := citation_url o in
  words <- lift (py_split item_text " ") ;;
  let wrapped_lines :=
    wrap_words (text_width body_font) max_width words [] EmptyString in
  y <- draw_lines x y true wrapped_lines body_font text_color ;;
  if truthy citation then
    segments <- lift (py_split citation "/") ;;
    draw_text (x + 25) y
      (PStr ("(Source: " ++ last segments EmptyString ++ ")"))
      (100, 100, 100) font_small ;;;
    ret (y + 18)
  else ret y.

Fixpoint draw_items (x y : Z) (elements : list pyval)
    (body_font : font) (text_color : color) (max_width : Z) : M Z :=
  match elements with
  | [] => ret y
  | item_data :: elements' =>
      y <- draw_item x y item_data body_font text_color max_width ;;
      draw_items x y elements' body_font text_color max_width
  end.

(** [draw_bullet_section] (lines 240-275); the drawer is the canvas of
    the monad. *)
Definition draw_bullet_section (x y : Z) (title : string) (items : pyval)
    (header_font body_font : font) (text_color : color) (max_width : Z)
  : M Z :=
  draw_text x y (PStr title) section_title_color header_font ;;;
  let y := y + 25 in
  y <- (if negb (truthy items) then
          draw_text (x + 10) y
            (PStr (bullet ++ " No specific data inferred."))
            (150, 150, 150) body_font ;;;
          ret (y + 25)
        else
          elements <- lift (py_iter items) ;;
          draw_items x y elements body_font text_color max_width) ;;
  ret (y + 20).

(** Lines 226-233: the list [info_items] of formatted lines. *)
Fixpoint format_info (persona_data : pyval) (fields : list (string * string))
  : exn + list string :=
  match fields with
  | [] => inr []
  | (label, key) :: fields' =>
      match py_get persona_data key (PStr "N/A") with
      | inl e => inl e
      | inr v =>
          match format_info persona_data fields' with
          | inl e => inl e
          | inr lines => inr ((label ++ py_str v) :: lines)
          end
      end
  end.

(** Lines 234-236. *)
Fixpoint draw_info (x_margin y_offset : Z) (info_items : list string) : M Z :=
  match info_items with
  | [] => ret y_offset
  | item :: info_items' =>
      draw_text (x_margin + 10) y_offset (PStr item) text_color font_body ;;;
      draw_info x_margin (y_offset + 25) info_items'
  end.

(** How a call of [generate_persona_image] ends when nothing is raised:
    at the early [return] of line 180, or at [img.save] with the cursor
    at [y_offset]. *)
Inductive rendered : Type :=
| NoData
| Saved (y_offset : Z).

(** [generate_persona_image] (lines 173-290) without the fonts' loading
    and the file's writing. *)
Definition generate_persona_image (persona_data : pyval) : M rendered :=
  if negb (truthy persona_data) then ret NoData else
  let y_offset := 40 in
  let x_margin := 60 in
  let content_width := width - 2 * x_margin in
  draw_text x_margin y_offset (PStr "User Persona Card")
    header_color font_title ;;;
  let y_offset := y_offset + 60 in
  persona_name <- lift (py_get persona_data "persona_name" (PStr "N/A")) ;;
  draw_text x_margin y_offset persona_name accent_color font_name ;;;
  let y_offset := y_offset + 40 in
  draw_text x_margin y_offset (PStr "Basic Information:")
    section_title_color font_header ;;;
  let y_offset := y_offset + 30 in
  info_items <- lift (format_info persona_data info_fields) ;;
  y_offset <- draw_info x_margin y_offset info_items ;;
  let y_offset := y_offset + 20 in
  items <- lift (py_get persona_data "frustrations" (PList [])) ;;
  y_offset <- draw_bullet_section x_margin y_offset "Frustrations:" items
                font_header font_body text_color content_width ;;
  items <- lift (py_get persona_data "likings" (PList [])) ;;
  y_offset <- draw_bullet_section x_margin y_offset "Likings:" items
                font_header font_body text_color content_width ;;
  items <- lift (py_get persona_data "motivations" (PList [])) ;;
  y_offset <- draw_bullet_section x_margin y_offset "Motivations:" items
                font_header font_body text_color content_width ;;
  items <- lift (py_get persona_data "behavior_habits" (PList [])) ;;
  y_offset <- draw_bullet_section x_margin y_offset "Behavior & Habits:" items
                font_header font_body text_color content_width ;;
  items <- lift (py_get persona_data "goals_needs" (PList [])) ;;
  y_offset <- draw_bullet_section x_margin y_offset "Goals & Needs:" items
                font_header font_body text_color content_width ;;
  ret (Saved y_offset).

(** [main] from the generation call on (lines 309-326). *)
Definition main_tail (json_loads : string -> loads_result)
    (persona_raw_text : option string) : run_outcome (M rendered) :=
  run_pipeline json_loads generate_persona_image persona_raw_text.

End Layout.

(** A fixed-pitch metric, six pixels a character, and a [str()] that is
    exact on strings: enough to run the layout on concrete records. *)
Definition fixed_pitch (f : font) (s : string) : Z :=
  6 * Z.of_nat (String.length s).

Definition str_of_str (v : pyval) : string :=
  match v with
  | PStr s => s
  | _ => "?"
  end.

(* ================================================================= *)
(** ** Notions used in the statements *)

(** Does the character occur in the string? *)
Fixpoint contains (c : ascii) (s : string) : bool :=
  match s with
  | EmptyString => false
  | String a s' => Ascii.eqb a c || contains c s'
  end.

(** [s] begins with [p]. *)
Definition begins_with (p s : string) : Prop := exists x, s = p ++ x.

(** The words of a drawn line, and the text obtained by joining the words
    of all lines with single spaces.  An empty line has no word. *)
Definition line_words (line : string) : list string :=
  filter (fun w => negb (String.eqb w EmptyString)) (split " " line).

Definition rejoined (lines : list string) : string :=
  join " " (flat_map line_words lines).

(** A word that [strip] leaves alone: not empty, no blank at either end. *)
Definition clean_word (w : string) : bool :=
  negb (String.eqb w EmptyString) && String.eqb (strip w) w.

(** An item whose words are all clean: single spaces between words, none
    at the ends, no other blank at the edge of a word. *)
Definition clean_item (item_text : string) : bool :=
  forallb clean_word (split " " item_text).

(** The cursor values at which a canvas was drawn, in drawing order. *)
Definition cursor_trace (c : canvas) : list Z := map at_y c.

Fixpoint nondecreasing (l : list Z) : Prop :=
  match l with
  | [] => True
  | a :: l' => Forall (Z.le a) l' /\ nondecreasing l'
  end.

(** The scenario of the end-to-end example: a fenced JSON answer. *)
Definition newline : string := String "010"%char EmptyString.

Definition scenario_a : string :=
  "```json" ++ newline
  ++ json_text "{'persona_name':'Alex S.','frustrations':[{'item':'Dislikes unclear instructions','citation_url':'https://reddit.com/r/x/comments/abc'}]}"
  ++ newline ++ "```".

(** The isolated payload is not read as an object: [json.loads] raises,
    or gives a value that is not a dict. *)
Definition not_an_object (json_loads : string -> loads_result)
    (text : string) : Prop :=
  forall d : dict, json_loads (isolate_payload text) <> Loaded (PDict d).

(** The malformed-payload property in its first form: whenever the
    isolated payload is not read as an object, [extract] fails with
    [MalformedPayload] and the renderer is not called. *)
Definition malformed_payload_property {R : Type}
    (json_loads : string -> loads_result) (render : pyval -> R)
    (raw : string) : Prop :=
  not_an_object json_loads (clean_response raw) ->
  (exists excerpt, extract json_loads raw = MalformedPayload excerpt)
  /\ (forall rendering,
        run_pipeline json_loads render (Some (clean_response raw))
        <> RenderCalled rendering).

(** No blank at the front. *)
Definition starts_clean (s : string) : Prop :=
  match s with
  | EmptyString => True
  | String c _ => is_space c = false
  end.

(** The first word of an item text. *)
Definition first_word (item_text : string) : string :=
  hd EmptyString (split " " item_text).

(** The word-wrap property in its first form: every line within
    [max_width], and the item recovered from the lines' words. *)
Definition wrap_bounded (measure : string -> Z) (max_width : Z)
    (item_text : string) : Prop :=
  Forall (fun line => measure line <= max_width)
    (wrap_text measure max_width item_text).

Definition wrap_faithful (measure : string -> Z) (max_width : Z)
    (item_text : string) : Prop :=
  rejoined (wrap_text measure max_width item_text) = item_text.

(** Totality of the reads in its first form: on every object they
    succeed and give a well-formed record. *)
Definition normalize_total (d : dict) : Prop :=
  exists r, normalize (PDict d) = inr r /\ well_formed r = true.

(** A drawing computation entered with the cursor at [y] does not move it
    back: what it draws is drawn at non-decreasing cursor values, none
    below [y]; and if it ends without raising, the cursor it leaves,
    [cur a], is at or beyond [y] and every value drawn at. *)
Definition tracks {A : Type} (cur : A -> Z) (y : Z) (m : M A) : Prop :=
  nondecreasing (cursor_trace (fst m))
  /\ Forall (Z.le y) (cursor_trace (fst m))
  /\ match snd m with
     | inr a => y <= cur a
                /\ Forall (fun v => v <= cur a) (cursor_trace (fst m))
     | inl _ => True
     end.

(** The cursor left by a finished call of the renderer. *)
Definition final_cursor (r : rendered) : Z :=
  match r with
  | Saved y_offset => y_offset
  | NoData => 40
  end.

(** A drawing computation that ends without raising. *)
Definition succeeds {A : Type} (m : M A) : Prop := exists a, snd m = inr a.

(* ================================================================= *)
(** ** The other functions of [main.py] *)

(** [s.rstrip(c)] for a one-character set. *)
Fixpoint rstrip_char (c : ascii) (s : string) : string :=
  match s with
  | EmptyString => EmptyString
  | String a s' =>
      match rstrip_char c s' with
      | EmptyString => if Ascii.eqb a c then EmptyString else String a EmptyString
      | r => String a r
      end
  end.

(** [extract_username] (lines 46-48). *)
Definition extract_username (profile_url : string) : string :=
  last (split "/" (rstrip_char "/" profile_url)) EmptyString.

(** The segment shown for a citation (line 272):
    [citation.split('/')[-1]]. *)
Definition citation_segment (citation : string) : string :=
  last (split "/" citation) EmptyString.

(** The text holds the object [{b}] between a part with no opening brace
    and a part with no closing brace. *)
Definition holds_object (b s : string) : Prop :=
  exists p q, s = p ++ "{" ++ b ++ "}" ++ q
              /\ contains "{" p = false /\ contains "}" q = false.

(** Each value of the list is at least [gap] beyond the ones before it. *)
Fixpoint spaced (gap : Z) (l : list Z) : Prop :=
  match l with
  | [] => True
  | a :: l' => Forall (fun b => a + gap <= b) l' /\ spaced gap l'
  end.

(** The smallest advance of the cursor between two texts: the height of a
    citation line (line 273). *)
Definition line_gap : Z := 18.

(** A drawing computation entered with the cursor at [y] keeps its texts
    apart: the cursor values it draws at are spaced by [line_gap], none is
    below [y], and if it ends without raising, the cursor it leaves is at
    least [line_gap] beyond every value drawn at. *)
Definition paces {A : Type} (cur : A -> Z) (y : Z) (m : M A) : Prop :=
  spaced line_gap (cursor_trace (fst m))
  /\ Forall (Z.le y) (cursor_trace (fst m))
  /\ match snd m with
     | inr a => y <= cur a
                /\ Forall (fun v => v + line_gap <= cur a)
                     (cursor_trace (fst m))
     | inl _ => True
     end.

(** The height an observation takes when it is drawn: 20 pixels a wrapped
    line (line 269) and 18 for the citation line, if any (line 273). *)
Definition observation_height (measure : string -> Z) (max_width : Z)
    (o : Observation) : Z :=
  match item o with
  | PStr item_text =>
      20 * Z.of_nat (List.length (wrap_text measure max_width item_text))
  | _ => 0
  end
  + (if truthy (citation_url o) then 18 else 0).

Fixpoint observations_height (measure : string -> Z) (max_width : Z)
    (os : list Observation) : Z :=
  match os with
  | [] => 0
  | o :: os' =>
      observation_height measure max_width o
      + observations_height measure max_width os'
  end.

(** The height of a section: its title, its observations or the one
    placeholder line, and the space after it (lines 242, 245, 274). *)
Definition section_height (measure : string -> Z) (max_width : Z)
    (os : list Observation) : Z :=
  25
  + match os with
    | [] => 25
    | _ :: _ => observations_height measure max_width os
    end
  + 20.

(** The cursor at the end of the card: the header block ends at 340. *)
Definition card_height (text_width : font -> string -> Z)
    (r : PersonaRecord) : Z :=
  340
  + section_height (text_width font_body) 680 (frustrations r)
  + section_height (text_width font_body) 680 (likings r)
  + section_height (text_width font_body) 680 (motivations r)
  + section_height (text_width font_body) 680 (behavior_habits r)
  + section_height (text_width font_body) 680 (goals_needs r).

(** The three columns of the card: titles at the margin in a header face,
    body lines 10 pixels in, citations 25 pixels in, small and grey. *)
Definition in_column (op : draw_op) : Prop :=
  (at_x op = 60
   /\ (face op = font_title \/ face op = font_name \/ face op = font_header))
  \/ (at_x op = 70 /\ face op = font_body)
  \/ (at_x op = 85 /\ face op = font_small /\ fill op = (100, 100, 100)).

(** *** Scraping and the prompt *)

(** What PRAW gives for a submission and for a comment: the attributes
    the source reads. *)
Module Submission.
Record t : Type := { title : string; selftext : string; permalink : string }.
End Submission.

Module Comment.
Record t : Type := { body : string; permalink : string }.
End Comment.

(** A listing of the Reddit client, as the [for] loop sees it: the items
    it yields, and whether it raises after the last of them. *)
Record listing (A : Type) : Type := {
  yielded : list A;
  raised : bool
}.

Arguments yielded {A} l.
Arguments raised {A} l.

(** The dict appended for a post (lines 59-63) and for a comment
    (lines 68-71). *)
Definition post_entry (post : Submission.t) : dict :=
  [ ("title", PStr (Submission.title post));
    ("body", PStr (Submission.selftext post));
    ("url", PStr ("https://reddit.com" ++ Submission.permalink post)) ].

Definition comment_entry (comment : Comment.t) : dict :=
  [ ("body", PStr (Comment.body comment));
    ("url", PStr ("https://reddit.com" ++ Comment.permalink comment)) ].

(** The tests of lines 58 and 67. *)
Definition post_has_content (post : Submission.t) : bool :=
  truthy (PStr (Submission.selftext post))
  || truthy (PStr (Submission.title post)).

Definition comment_has_content (comment : Comment.t) : bool :=
  truthy (PStr (Comment.body comment)).

(** [scrape_user_data] (lines 50-77) on the two listings of the user.
    Both loops are inside one [try]: when the first listing raises, the
    second is never read, and what was appended stays. *)
Definition scrape_user_data (submissions : listing Submission.t)
    (user_comments : listing Comment.t) : list dict * list dict :=
  let posts := map post_entry (filter post_has_content (yielded submissions)) in
  if raised submissions then (posts, [])
  else (posts,
        map comment_entry (filter comment_has_content (yielded user_comments))).

(** [d[key]] raises [KeyError] on an absent key. *)
Inductive lookup_error : Type := KeyError (key : string).

Definition dict_item (d : dict) (key : string) : lookup_error + pyval :=
  if has_key d key then inr (dict_get d key PNone) else inl (KeyError key).

Definition item_then {A B : Type} (r : lookup_error + A)
    (k : A -> lookup_error + B) : lookup_error + B :=
  match r with
  | inl e => inl e
  | inr a => k a
  end.

(** [sub] occurs in [s]. *)
Definition occurs (sub s : string) : Prop := exists a b, s = a ++ sub ++ b.

Section Prompt.

(** [str()], as in the layout, and the literal of lines 95-132. *)
Variable py_str : pyval -> string.
Variable instructions : string.

(** The f-strings of lines 91 and 93; [i] is the index of [enumerate]. *)
Definition post_block (i : Z) (post : dict) : lookup_error + string :=
  item_then (dict_item post "title") (fun title =>
  item_then (dict_item post "body") (fun body =>
  item_then (dict_item post "url") (fun url =>
  inr ("--- POST " ++ py_str (PInt (i + 1)) ++ " ---" ++ newline
       ++ "Title: " ++ py_str title ++ newline
       ++ "Content: " ++ py_str body ++ newline
       ++ "URL: " ++ py_str url ++ newline ++ newline)))).

Definition comment_block (i : Z) (comment : dict) : lookup_error + string :=
  item_then (dict_item comment "body") (fun body =>
  item_then (dict_item comment "url") (fun url =>
  inr ("--- COMMENT " ++ py_str (PInt (i + 1)) ++ " ---" ++ newline
       ++ "Body: " ++ py_str body ++ newline
       ++ "URL: " ++ py_str url ++ newline ++ newline))).

(** The two loops of lines 90-93, each appending to [text_data]. *)
Fixpoint append_blocks (block : Z -> dict -> lookup_error + string) (i : Z)
    (entries : list dict) (text_data : string) : lookup_error + string :=
  match entries with
  | [] => inr text_data
  | entry :: entries' =>
      item_then (block i entry) (fun b =>
      append_blocks block (i + 1) entries' (text_data ++ b))
  end.

Definition data_header : string :=
  "### USER'S REDDIT ACTIVITY DATA:" ++ newline ++ newline.

Definition no_data_notice : string :=
  "No public posts or comments found for this user.".

(** [build_prompt] (lines 80-133). *)
Definition build_prompt (posts comments : list dict) : lookup_error + string :=
  let text_data := data_header in
  let text_data :=
    match posts, comments with
    | [], [] => text_data ++ no_data_notice
    | _, _ => text_data
    end in
  item_then (append_blocks post_block 0 posts text_data) (fun text_data =>
  item_then (append_blocks comment_block 0 comments text_data) (fun text_data =>
  inr (instructions ++ newline ++ newline ++ text_data))).

End Prompt.

(** The entries that [build_prompt] can format. *)
Definition post_keys (post : dict) : bool :=
  has_key post "title" && has_key post "body" && has_key post "url".

Definition comment_keys (comment : dict) : bool :=
  has_key comment "body" && has_key comment "url".

(** *** [main], whole *)

Section Main.

Variable text_width : font -> string -> Z.
Variable py_str : pyval -> string.
Variable instructions : string.
Variable json_loads : string -> loads_result.

(** The two listings of [reddit.redditor(username)], and
    [model.generate_content(prompt).text] ([None] when it raises). *)
Variable redditor : string -> listing Submission.t * listing Comment.t.
Variable generate_content : string -> option string.

(** [generate_persona_with_gemini] (lines 135-150). *)
Definition generate_persona_with_gemini (prompt : string) : option string :=
  match generate_content prompt with
  | Some response_text => Some (clean_response response_text)
  | None => None
  end.

(** How [main] ends: at one of its two early returns, on an exception of
    [build_prompt], or after the pipeline has been run for [username] on
    [prompt]. *)
Inductive main_outcome : Type :=
| NoUrlEntered
| NothingScraped
| PromptRaised (e : lookup_error)
| PipelineRun (username prompt : string) (o : run_outcome (M rendered)).

(** [main] (lines 293-328). *)
Definition main (profile_url : string) : main_outcome :=
  if negb (truthy (PStr profile_url)) then NoUrlEntered else
  let username := extract_username profile_url in
  let '(posts, comments) :=
    scrape_user_data (fst (redditor username)) (snd (redditor username)) in
  match posts, comments with
  | [], [] => NothingScraped
  | _, _ =>
      match build_prompt py_str instructions posts comments with
      | inl e => PromptRaised e
      | inr prompt =>
          PipelineRun username prompt
            (main_tail text_width py_str json_loads
               (generate_persona_with_gemini prompt))
      end
  end.

End Main.

(* ================================================================= *)
(** * Properties *)

(** ** Strings *)

Lemma append_empty_r (s : string) : s ++ EmptyString = s.
Proof. induction s as [|c s IH]; simpl; [reflexivity | now rewrite IH]. Qed.

Lemma append_assoc (a b c : string) : (a ++ b) ++ c = a ++ (b ++ c).
Proof. induction a as [|x a IH]; simpl; [reflexivity | now rewrite IH]. Qed.

Lemma append_eq_empty (a b : string) :
  a ++ b = EmptyString -> a = EmptyString /\ b = EmptyString.
Proof. destruct a; simpl; intros H; [auto | discriminate]. Qed.

Lemma length_append (a b : string) :
  String.length (a ++ b) = (String.length a + String.length b)%nat.
Proof. induction a as [|x a IH]; simpl; [reflexivity | now rewrite IH]. Qed.

Lemma substring_skip (a t : string) (n : nat) :
  substring (String.length a) n (a ++ t) = substring 0 n t.
Proof. induction a as [|x a IH]; simpl; [reflexivity | exact IH]. Qed.

Lemma substring_take (u c : string) :
  substring 0 (String.length u) (u ++ c) = u.
Proof.
  induction u as [|x u IH]; simpl.
  - destruct c; reflexivity.
  - now rewrite IH.
Qed.

Lemma substring_zero (n : nat) (s : string) : substring n 0 s = EmptyString.
Proof.
  revert n; induction s as [|c s IH]; intros [|n]; simpl; auto.
Qed.

Lemma substring_head_min (n : nat) (s : string) :
  substring 0 (Nat.min n (String.length s)) s = substring 0 n s.
Proof.
  revert n; induction s as [|c s IH]; intros [|n]; simpl; auto.
  now rewrite IH.
Qed.

(** *** [find] and [rfind] *)

Lemma find_from_range (c : ascii) (s : string) (i : Z) :
  find_from c s i = -1 \/ i <= find_from c s i.
Proof.
  revert i; induction s as [|a s IH]; intros i; simpl.
  - now left.
  - destruct (Ascii.eqb a c).
    + right; lia.
    + destruct (IH (i + 1)) as [H | H]; [now left | right; lia].
Qed.

Lemma rfind_from_range (c : ascii) (s : string) (i : Z) :
  rfind_from c s i = -1 \/ i <= rfind_from c s i.
Proof.
  revert i; induction s as [|a s IH]; intros i; simpl.
  - now left.
  - destruct (IH (i + 1)) as [H | H].
    + rewrite H; simpl. destruct (Ascii.eqb a c); [right; lia | now left].
    + destruct (rfind_from c s (i + 1) =? -1) eqn:E.
      * destruct (Ascii.eqb a c); [right; lia | now left].
      * right; lia.
Qed.

Lemma find_from_absent (c : ascii) (s : string) (i : Z) :
  0 <= i -> (find_from c s i = -1 <-> contains c s = false).
Proof.
  revert i; induction s as [|a s IH]; intros i Hi; simpl.
  - tauto.
  - destruct (Ascii.eqb a c); simpl.
    + split; [lia | discriminate].
    + apply IH; lia.
Qed.

Lemma rfind_from_absent (c : ascii) (s : string) (i : Z) :
  0 <= i -> (rfind_from c s i = -1 <-> contains c s = false).
Proof.
  revert i; induction s as [|a s IH]; intros i Hi; simpl.
  - tauto.
  - specialize (IH (i + 1) ltac:(lia)).
    destruct (rfind_from c s (i + 1) =? -1) eqn:E.
    + apply Z.eqb_eq in E. destruct (Ascii.eqb a c); simpl.
      * split; [lia | discriminate].
      * split; [intros _; apply IH; exact E | reflexivity].
    + apply Z.eqb_neq in E. destruct (Ascii.eqb a c); simpl.
      * split; [contradiction | discriminate].
      * split; [contradiction |]. intros H; apply IH in H; contradiction.
Qed.

Lemma find_from_first (c : ascii) (a t : string) (i : Z) :
  contains c a = false ->
  find_from c (a ++ String c t) i = i + Z.of_nat (String.length a).
Proof.
  revert i; induction a as [|x a IH]; intros i H; simpl in *.
  - rewrite Ascii.eqb_refl; lia.
  - apply orb_false_iff in H as [Hx Ha]. rewrite Hx, IH by assumption. lia.
Qed.

Lemma rfind_from_last (c : ascii) (u t : string) (i : Z) :
  0 <= i -> contains c t = false ->
  rfind_from c (u ++ String c t) i = i + Z.of_nat (String.length u).
Proof.
  revert i; induction u as [|x u IH]; intros i Hi H; simpl.
  - assert (E : rfind_from c t (i + 1) = -1)
      by (apply rfind_from_absent; [lia | assumption]).
    rewrite E; simpl. rewrite Ascii.eqb_refl; lia.
  - rewrite IH by (lia || assumption).
    destruct (i + 1 + Z.of_nat (String.length u) =? -1) eqn:E.
    + apply Z.eqb_eq in E; lia.
    + lia.
Qed.

(** ** C3: payload isolation *)

(** C3.  Payload isolation returns the part of its input from the first
    opening brace to the last closing brace, both included: on a text
    [a{b}c] where [a] has no opening brace and [c] no closing brace the
    result is [{b}].  On the text [noise {"a":1} more noise] it is
    [{"a":1}].  When either brace does not occur the input comes back
    unchanged. *)
Theorem isolate_payload_spans_braces :
  (forall a b c : string,
      contains "{" a = false -> contains "}" c = false ->
      isolate_payload (a ++ "{" ++ b ++ "}" ++ c) = "{" ++ b ++ "}")
  /\ isolate_payload (json_text "noise {'a':1} more noise") = json_text "{'a':1}"
  /\ (forall s : string,
        contains "{" s = false \/ contains "}" s = false ->
        isolate_payload s = s).
Proof.
  split; [| split].
  - intros a b c Ha Hc. unfold isolate_payload, find, rfind.
    change (a ++ "{" ++ b ++ "}" ++ c) with (a ++ String "{" (b ++ String "}" c)).
    rewrite find_from_first by assumption.
    replace (a ++ String "{" (b ++ String "}" c))
      with ((a ++ String "{" b) ++ String "}" c)
      by (rewrite append_assoc; reflexivity).
    rewrite rfind_from_last by (lia || assumption).
    set (la := String.length a). set (lu := String.length (a ++ String "{" b)).
    assert (Hlu : lu = (la + S (String.length b))%nat)
      by (unfold lu, la; rewrite length_append; reflexivity).
    assert (Hlen : String.length ((a ++ String "{" b) ++ String "}" c)
                   = (lu + S (String.length c))%nat)
      by (unfold lu; rewrite length_append; reflexivity).
    replace (negb (0 + Z.of_nat la =? -1) && negb (0 + Z.of_nat lu =? -1))
      with true
      by (symmetry; apply andb_true_iff; split; apply negb_true_iff, Z.eqb_neq; lia).
    unfold py_slice, slice_index. rewrite Hlen.
    destruct (0 + Z.of_nat la <? 0) eqn:E1; [apply Z.ltb_lt in E1; lia |].
    destruct (0 + Z.of_nat lu + 1 <? 0) eqn:E2; [apply Z.ltb_lt in E2; lia |].
    replace (Z.to_nat (Z.min (0 + Z.of_nat la) (Z.of_nat (lu + S (String.length c)))))
      with la by lia.
    replace (Z.to_nat (Z.min (0 + Z.of_nat lu + 1) (Z.of_nat (lu + S (String.length c)))
                       - Z.min (0 + Z.of_nat la) (Z.of_nat (lu + S (String.length c)))))
      with (String.length ("{" ++ b ++ "}"))
      by (rewrite length_append, length_append; simpl; lia).
    rewrite !append_assoc. unfold la. rewrite substring_skip.
    replace (String "{" b ++ String "}" c) with (("{" ++ b ++ "}") ++ c)
      by (simpl; rewrite append_assoc; reflexivity).
    apply substring_take.
  - vm_compute. reflexivity.
  - intros s H. unfold isolate_payload, find, rfind.
    destruct H as [H | H].
    + apply (find_from_absent _ _ 0) in H; [| lia]. rewrite H. reflexivity.
    + apply (rfind_from_absent _ _ 0) in H; [| lia]. rewrite H.
      rewrite andb_false_r. reflexivity.
Qed.

Lemma isolate_payload_spans_braces_witness :
  contains "{" "noise " = false /\ contains "}" " more" = false
  /\ isolate_payload ("noise " ++ "{" ++ "x{y}z" ++ "}" ++ " more") = "{" ++ "x{y}z" ++ "}"
  /\ isolate_payload "no braces" = "no braces".
Proof.
  split; [reflexivity | split; [reflexivity | split]].
  - apply (proj1 isolate_payload_spans_braces); reflexivity.
  - apply (proj2 (proj2 isolate_payload_spans_braces)). left; reflexivity.
Defined.

(** ** C9, C4: texts that are not parsed *)

Lemma py_slice_head (s : string) :
  py_slice s None (Some 500) = substring 0 500 s.
Proof.
  unfold py_slice, slice_index.
  change (500 <? 0) with false. cbv iota.
  replace (Z.to_nat (Z.min 500 (Z.of_nat (String.length s)) - 0))
    with (Nat.min 500 (String.length s)) by lia.
  apply substring_head_min.
Qed.

Lemma contains_nonempty (c : ascii) (s : string) :
  contains c s = true -> truthy (PStr s) = true.
Proof. destruct s; simpl; [discriminate | reflexivity]. Qed.

(** C9.  When both braces occur in the text but the first opening brace
    comes after the last closing brace, the isolated payload is the empty
    string; [json.loads] raises its decode error on the empty string, so
    parsing ends in [MalformedPayload], [None] is returned and [main]
    reports the parsing failure without calling the renderer. *)
Theorem reversed_braces_malformed
    (text_width : font -> string -> Z) (py_str : pyval -> string)
    (json_loads : string -> loads_result) (text : string) :
  json_loads EmptyString = JSONDecodeError ->
  contains "{" text = true ->
  contains "}" text = true ->
  rfind "}" text < find "{" text ->
  isolate_payload text = EmptyString
  /\ parse_persona_data_from_json json_loads text = MalformedPayload EmptyString
  /\ returned (parse_persona_data_from_json json_loads text) = PNone
  /\ main_tail text_width py_str json_loads (Some text) = ParsingFailureReported.
Proof.
  intros Hloads Ho Hc Hrev.
  assert (Hiso : isolate_payload text = EmptyString).
  { unfold isolate_payload. unfold find, rfind in *.
    destruct (find_from_range "{" text 0) as [Ha | Ha].
    { apply find_from_absent in Ha; [congruence | lia]. }
    destruct (rfind_from_range "}" text 0) as [Hb | Hb].
    { apply rfind_from_absent in Hb; [congruence | lia]. }
    replace (negb (find_from "{" text 0 =? -1)
             && negb (rfind_from "}" text 0 =? -1)) with true
      by (symmetry; apply andb_true_iff; split;
          apply negb_true_iff, Z.eqb_neq; lia).
    unfold py_slice, slice_index.
    destruct (find_from "{" text 0 <? 0) eqn:E1; [apply Z.ltb_lt in E1; lia |].
    destruct (rfind_from "}" text 0 + 1 <? 0) eqn:E2;
      [apply Z.ltb_lt in E2; lia |].
    match goal with
    | |- substring _ (Z.to_nat ?n) _ = _ => replace (Z.to_nat n) with 0%nat by lia
    end.
    apply substring_zero. }
  assert (Hparse : parse_persona_data_from_json json_loads text
                   = MalformedPayload EmptyString).
  { unfold parse_persona_data_from_json. rewrite Hiso, Hloads. reflexivity. }
  repeat split; auto.
  - rewrite Hparse; reflexivity.
  - unfold main_tail, run_pipeline.
    rewrite (contains_nonempty _ _ Ho), Hparse. reflexivity.
Qed.

Lemma reversed_braces_malformed_witness :
  parse_persona_data_from_json json_loads_model "} sorry {"
  = MalformedPayload EmptyString.
Proof.
  apply (reversed_braces_malformed fixed_pitch str_of_str json_loads_model
           "} sorry {"); [reflexivity | reflexivity | reflexivity | vm_compute; reflexivity].
Defined.

(** C4 as first stated fails: the text [123] has no brace, its payload is
    not read as an object, and yet it is parsed (to the integer 123),
    returned, and handed to the renderer. *)
Lemma brace_free_json_is_rendered :
  contains "{" (clean_response "123") = false
  /\ extract json_loads_model "123" = Parsed (PInt 123)
  /\ ~ malformed_payload_property json_loads_model
         (generate_persona_image fixed_pitch str_of_str) "123".
Proof.
  split; [reflexivity | split; [reflexivity |]].
  intros H. destruct H as [[excerpt He] _].
  - intros d. vm_compute. discriminate.
  - vm_compute in He. discriminate.
Qed.

(** C4, amended.  Whenever [json.loads] raises its decode error on the
    isolated payload, [extract] ends in [MalformedPayload] carrying the
    first 500 characters of that payload, hands back [None] and no record,
    and [main] does not call the renderer. *)
Theorem decode_error_stops_pipeline
    (text_width : font -> string -> Z) (py_str : pyval -> string)
    (json_loads : string -> loads_result) (raw : string) :
  json_loads (isolate_payload (clean_response raw)) = JSONDecodeError ->
  extract json_loads raw
  = MalformedPayload (substring 0 500 (isolate_payload (clean_response raw)))
  /\ returned (extract json_loads raw) = PNone
  /\ (forall rendering,
        main_tail text_width py_str json_loads (Some (clean_response raw))
        <> RenderCalled rendering).
Proof.
  intros H.
  assert (E : extract json_loads raw
              = MalformedPayload
                  (substring 0 500 (isolate_payload (clean_response raw)))).
  { unfold extract, parse_persona_data_from_json. rewrite H.
    now rewrite py_slice_head. }
  split; [exact E | split].
  - rewrite E; reflexivity.
  - intros rendering. unfold main_tail, run_pipeline.
    destruct (truthy (PStr (clean_response raw))); [| discriminate].
    unfold extract in E. rewrite E. simpl. discriminate.
Qed.

Lemma decode_error_stops_pipeline_witness :
  extract json_loads_model "Sorry, I cannot help with that."
  = MalformedPayload "Sorry, I cannot help with that.".
Proof.
  apply (decode_error_stops_pipeline fixed_pitch str_of_str json_loads_model
           "Sorry, I cannot help with that.").
  vm_compute. reflexivity.
Defined.

(** ** C5: the fenced answer, end to end *)

(** C5.  On the fenced answer [scenario_a] the two fence markers are
    removed, the payload is parsed, the record read from it has
    [estimated_age] at its default, [frustrations] holds exactly one
    observation, and the citation line drawn for it shows the last
    segment of its URL, [abc]. *)
Theorem scenario_a_end_to_end :
  clean_response scenario_a
  = newline
    ++ json_text "{'persona_name':'Alex S.','frustrations':[{'item':'Dislikes unclear instructions','citation_url':'https://reddit.com/r/x/comments/abc'}]}"
    ++ newline
  /\ exists persona_data r,
      extract json_loads_model scenario_a = Parsed persona_data
      /\ normalize persona_data = inr r
      /\ persona_name r = PStr "Alex S."
      /\ estimated_age r = PStr "N/A"
      /\ frustrations r
         = [ {| item := PStr "Dislikes unclear instructions";
                citation_url := PStr "https://reddit.com/r/x/comments/abc" |} ]
      /\ last (split "/" "https://reddit.com/r/x/comments/abc") EmptyString = "abc"
      /\ In (Text 85 385 "(Source: abc)" (100, 100, 100) font_small)
            (fst (generate_persona_image fixed_pitch str_of_str persona_data)).
Proof.
  split; [vm_compute; reflexivity |].
  eexists. eexists.
  split; [vm_compute; reflexivity |].
  split; [vm_compute; reflexivity |].
  repeat split.
  vm_compute. do 11 right. left. reflexivity.
Qed.

(** ** [strip] and [split] *)

Lemma lstrip_starts_clean (s : string) : starts_clean (lstrip s).
Proof.
  induction s as [|c s IH]; simpl; [exact I |].
  destruct (is_space c) eqn:E; [exact IH | exact E].
Qed.

Lemma starts_clean_lstrip (s : string) : starts_clean s -> lstrip s = s.
Proof. destruct s as [|c s]; simpl; [reflexivity | intros ->; reflexivity]. Qed.

Lemma rstrip_starts_clean (s : string) :
  starts_clean s -> starts_clean (rstrip s).
Proof.
  destruct s as [|c s]; simpl; [auto |]. intros H.
  destruct (rstrip s); [rewrite H |]; exact H.
Qed.



Lemma strip_after_space (w : string) : strip (String " " w) = strip w.
Proof. reflexivity. Qed.




Lemma begins_with_trans (a b c : string) :
  begins_with a b -> begins_with b c -> begins_with a c.
Proof.
  intros [x ->] [y ->]. exists (x ++ y). apply append_assoc.
Qed.

Lemma rstrip_keeps_tail (x w : string) :
  rstrip w = w -> w <> EmptyString -> rstrip (x ++ w) = x ++ w.
Proof.
  intros Hw Hne. induction x as [|c x IH]; simpl; [exact Hw |].
  rewrite IH. destruct (x ++ w) eqn:E; [| reflexivity].
  apply append_eq_empty in E. tauto.
Qed.

Lemma lstrip_keeps_head (w x : string) :
  starts_clean w -> w <> EmptyString -> lstrip (w ++ x) = w ++ x.
Proof.
  destruct w as [|c w]; simpl; [congruence |]. intros -> _. reflexivity.
Qed.

Lemma clean_word_facts (w : string) :
  clean_word w = true ->
  w <> EmptyString /\ starts_clean w /\ lstrip w = w /\ rstrip w = w.
Proof.
  unfold clean_word. intros H. apply andb_true_iff in H as [Hne Hs].
  apply negb_true_iff, String.eqb_neq in Hne. apply String.eqb_eq in Hs.
  assert (Hc : starts_clean w).
  { rewrite <- Hs. apply rstrip_starts_clean, lstrip_starts_clean. }
  assert (Hl : lstrip w = w) by now apply starts_clean_lstrip.
  repeat split; auto. unfold strip in Hs. now rewrite Hl in Hs.
Qed.

Lemma split_nonempty (sep : ascii) (s : string) : split sep s <> [].
Proof.
  induction s as [|c s IH]; simpl; [discriminate |].
  destruct (Ascii.eqb c sep); [discriminate |].
  destruct (split sep s); discriminate.
Qed.

Lemma split_no_sep (sep : ascii) (s : string) :
  Forall (fun w => contains sep w = false) (split sep s).
Proof.
  induction s as [|c s IH]; simpl.
  - repeat constructor.
  - destruct (Ascii.eqb c sep) eqn:E.
    + constructor; [reflexivity | exact IH].
    + destruct (split sep s) as [|w ws].
      * repeat constructor. simpl. now rewrite E.
      * inversion IH; subst. constructor; [| assumption].
        simpl. now rewrite E.
Qed.

Lemma split_single (sep : ascii) (w : string) :
  contains sep w = false -> split sep w = [w].
Proof.
  induction w as [|c w IH]; simpl; [reflexivity |].
  intros H. apply orb_false_iff in H as [Hc Hw].
  rewrite Hc, (IH Hw). reflexivity.
Qed.

Lemma split_append (sep : ascii) (a b : string) :
  split sep (a ++ String sep b) = (split sep a ++ split sep b)%list.
Proof.
  induction a as [|c a IH]; simpl.
  - now rewrite Ascii.eqb_refl.
  - destruct (Ascii.eqb c sep); rewrite IH; [reflexivity |].
    destruct (split sep a) eqn:E; [| reflexivity].
    now apply split_nonempty in E.
Qed.

Lemma join_split (sep : ascii) (s : string) :
  join (String sep EmptyString) (split sep s) = s.
Proof.
  unfold join. induction s as [|c s IH]; simpl; [reflexivity |].
  destruct (Ascii.eqb c sep) eqn:E.
  - apply Ascii.eqb_eq in E; subst c.
    destruct (split sep s) as [|w ws] eqn:Es;
      [now apply split_nonempty in Es |].
    simpl in *. now rewrite IH.
  - destruct (split sep s) as [|w ws] eqn:Es;
      [now apply split_nonempty in Es |].
    destruct ws as [|w' ws]; simpl in *.
    + now rewrite IH.
    + now rewrite <- IH.
Qed.

Lemma line_words_empty : line_words EmptyString = [].
Proof. reflexivity. Qed.

Lemma line_words_single (w : string) :
  w <> EmptyString -> contains " " w = false -> line_words w = [w].
Proof.
  intros Hne Hw. unfold line_words. rewrite split_single by assumption.
  simpl. apply String.eqb_neq in Hne. now rewrite Hne.
Qed.

Lemma line_words_append (cur w : string) :
  w <> EmptyString -> contains " " w = false ->
  line_words (cur ++ " " ++ w) = (line_words cur ++ [w])%list.
Proof.
  intros Hne Hw. unfold line_words.
  change (cur ++ " " ++ w) with (cur ++ String " " w).
  rewrite split_append, filter_app, (split_single " " w) by assumption.
  simpl. apply String.eqb_neq in Hne. now rewrite Hne.
Qed.

(** ** C7, C10, C1: the word wrap *)

Section Wrap.

Variable measure : string -> Z.
Variable max_width : Z.

Let wrap := wrap_words measure max_width.


Lemma wrap_words_length (words wrapped : list string) (cur : string) :
  (List.length wrapped + 1 <= List.length (wrap words wrapped cur))%nat.
Proof.
  unfold wrap. revert wrapped cur.
  induction words as [|w ws IH]; intros wrapped cur; simpl.
  - rewrite length_app. simpl. lia.
  - destruct (measure (strip (cur ++ String " " w)) <? max_width - 20).
    + apply IH.
    + specialize (IH (wrapped ++ [cur])%list w).
      rewrite length_app in IH. simpl in IH. lia.
Qed.

(** An invariant of the loop: a property that the initial lines and the
    current line have, that a fitting candidate line has, and that every
    word has, holds of every line produced. *)
Lemma wrap_words_Forall (P : string -> Prop)
    (words wrapped : list string) (cur : string) :
  Forall P wrapped -> P cur ->
  (forall c w, In w words ->
               measure (strip (c ++ " " ++ w)) < max_width - 20 ->
               P (strip (c ++ " " ++ w))) ->
  (forall w, In w words -> P w) ->
  Forall P (wrap words wrapped cur).
Proof.
  unfold wrap. revert wrapped cur.
  induction words as [|w ws IH]; intros wrapped cur Hw Hc Hfit Hword; simpl.
  - apply Forall_app; split; [assumption | repeat constructor; assumption].
  - destruct (measure (strip (cur ++ String " " w)) <? max_width - 20) eqn:E.
    + apply IH; auto.
      * apply Hfit; [now left | now apply Z.ltb_lt].
      * intros c w' Hin. apply Hfit. now right.
      * intros w' Hin. apply Hword. now right.
    + apply IH.
      * apply Forall_app; split; [assumption | repeat constructor; assumption].
      * apply Hword. now left.
      * intros c w' Hin. apply Hfit. now right.
      * intros w' Hin. apply Hword. now right.
Qed.


(** The candidate line built from a good current line and a clean word. *)
Lemma candidate_line (cur w : string) :
  cur = EmptyString \/ (starts_clean cur /\ cur <> EmptyString) ->
  clean_word w = true -> contains " " w = false ->
  let test_line := strip (cur ++ " " ++ w) in
  starts_clean test_line /\ test_line <> EmptyString
  /\ line_words test_line = (line_words cur ++ [w])%list.
Proof.
  intros Hcur Hw Hsp.
  destruct (clean_word_facts w Hw) as (Hne & Hsc & Hl & Hr).
  destruct Hcur as [-> | [Hc Hcne]]; cbv zeta.
  - change (EmptyString ++ " " ++ w) with (String " " w).
    rewrite strip_after_space. unfold strip. rewrite Hl, Hr.
    repeat split; auto. now apply line_words_single.
  - assert (E : strip (cur ++ " " ++ w) = cur ++ " " ++ w).
    { unfold strip. rewrite lstrip_keeps_head by assumption.
      rewrite <- append_assoc. rewrite rstrip_keeps_tail by assumption.
      reflexivity. }
    rewrite E. repeat split.
    + destruct cur; [congruence | exact Hc].
    + destruct cur; [congruence | discriminate].
    + now apply line_words_append.
Qed.

(** With clean words, the words of the produced lines are the words
    consumed, in order. *)
Lemma wrap_words_keeps_words (words wrapped : list string) (cur : string) :
  Forall (fun w => clean_word w = true /\ contains " " w = false) words ->
  cur = EmptyString \/ (starts_clean cur /\ cur <> EmptyString) ->
  flat_map line_words (wrap words wrapped cur)
  = (flat_map line_words wrapped ++ line_words cur ++ words)%list.
Proof.
  unfold wrap. revert wrapped cur.
  induction words as [|w ws IH]; intros wrapped cur Hws Hcur; simpl.
  - rewrite flat_map_app. simpl. now rewrite !app_nil_r.
  - inversion Hws as [|? ? [Hw Hsp] Hws']; subst.
    destruct (candidate_line cur w Hcur Hw Hsp) as (Hsc & Hne & Hlw).
    change (cur ++ " " ++ w) with (cur ++ String " " w) in Hsc, Hne, Hlw.
    destruct (measure (strip (cur ++ String " " w)) <? max_width - 20).
    + rewrite IH by auto. rewrite Hlw. now rewrite <- app_assoc.
    + destruct (clean_word_facts w Hw) as (Hwne & Hwsc & _).
      rewrite IH by auto. rewrite flat_map_app. cbn [flat_map].
      rewrite (line_words_single w) by assumption.
      rewrite app_nil_r. now rewrite <- !app_assoc.
Qed.

End Wrap.

Lemma clean_item_words (item_text : string) :
  clean_item item_text = true ->
  Forall (fun w => clean_word w = true /\ contains " " w = false)
    (split " " item_text).
Proof.
  unfold clean_item. intros H.
  pose proof (split_no_sep " " item_text) as Hsp.
  rewrite forallb_forall in H. rewrite Forall_forall in *.
  intros w Hin. split; [apply H | apply Hsp]; assumption.
Qed.

(** C7 as first stated fails for the empty item.  With a limit that the
    empty text does not measure below (here [max_width = 20], so the limit
    is 0 and the empty text measures 0), the candidate line of the one
    empty word does not fit: the empty current line is committed, and the
    final append commits a second empty line. *)
Lemma empty_item_wraps_to_two_lines :
  0 < 20
  /\ wrap_text (fixed_pitch font_body) 20 EmptyString
     = [EmptyString; EmptyString]
  /\ wrap_text (fixed_pitch font_body) 20 EmptyString <> [EmptyString].
Proof.
  split; [reflexivity | split; [reflexivity | discriminate]].
Qed.

(** C7, amended.  The wrap returns at least one line for every item text
    and every [max_width].  For the empty item text it returns exactly
    one line, the empty one, when the empty text measures below the limit
    [max_width - 20] (as it does at the renderer's 680 with an empty text
    of width 0); when the empty text does not measure below the limit, it
    returns two empty lines. *)
Theorem wrap_at_least_one_line (measure : string -> Z) :
  (forall max_width item_text,
      (1 <= List.length (wrap_text measure max_width item_text))%nat)
  /\ (forall max_width,
        measure EmptyString < max_width - 20 ->
        wrap_text measure max_width EmptyString = [EmptyString])
  /\ (forall max_width,
        max_width - 20 <= measure EmptyString ->
        wrap_text measure max_width EmptyString = [EmptyString; EmptyString]).
Proof.
  split; [| split].
  - intros max_width item_text. unfold wrap_text.
    pose proof (wrap_words_length measure max_width
                  (split " " item_text) [] EmptyString) as H.
    simpl in H. exact H.
  - intros max_width H. unfold wrap_text. simpl.
    change (strip " ") with EmptyString.
    apply Z.ltb_lt in H. now rewrite H.
  - intros max_width H. unfold wrap_text. simpl.
    change (strip " ") with EmptyString.
    apply Z.ltb_ge in H. now rewrite H.
Qed.

Lemma wrap_at_least_one_line_witness :
  fixed_pitch font_body EmptyString < 680 - 20
  /\ wrap_text (fixed_pitch font_body) 680 EmptyString = [EmptyString].
Proof.
  split; [reflexivity |].
  apply (proj1 (proj2 (wrap_at_least_one_line (fixed_pitch font_body)))).
  reflexivity.
Defined.




(** C1 as first stated fails, in both halves.  With six pixels a
    character and [max_width = 100], a word of 26 letters is placed alone
    on a line 156 pixels wide; and the item [a  b], with two spaces, is
    wrapped to the single line [a b], from which the item is not
    recovered. *)
Lemma wrap_overflows_and_collapses :
  0 < 100
  /\ ~ wrap_bounded (fixed_pitch font_body) 100 "abcdefghijklmnopqrstuvwxyz"
  /\ ~ wrap_faithful (fixed_pitch font_body) 100 "a  b".
Proof.
  split; [reflexivity | split].
  - unfold wrap_bounded. vm_compute. intros H.
    inversion H as [|? ? _ H']; subst.
    inversion H' as [|? ? Hle _]; subst.
    apply Hle. reflexivity.
  - unfold wrap_faithful. vm_compute. discriminate.
Qed.

(** C1, amended.  For every item text and every [max_width], each line
    produced is empty, or is one word of the item standing alone, or
    measures below [max_width - 20].  When the words of the item are
    clean (no empty word, no blank at the edge of a word), the words of
    the produced lines, joined in order by single spaces, are the item
    text exactly; and if moreover every word alone measures below
    [max_width - 20], so does every line. *)
Theorem wrap_lines_fit_or_single_word
    (measure : string -> Z) (max_width : Z) (item_text : string) :
  Forall (fun line =>
            line = EmptyString
            \/ In line (split " " item_text)
            \/ measure line < max_width - 20)
    (wrap_text measure max_width item_text)
  /\ (clean_item item_text = true ->
      rejoined (wrap_text measure max_width item_text) = item_text)
  /\ (clean_item item_text = true ->
      (forall w, In w (split " " item_text) -> measure w < max_width - 20) ->
      Forall (fun line => measure line < max_width - 20)
        (wrap_text measure max_width item_text)).
Proof.
  unfold wrap_text. split; [| split].
  - apply wrap_words_Forall; auto.
  - intros Hclean. unfold rejoined.
    rewrite wrap_words_keeps_words by (auto using clean_item_words).
    simpl. apply (join_split " ").
  - intros Hclean Hfit.
    pose proof (clean_item_words _ Hclean) as Hws.
    destruct (split " " item_text) as [|w0 rest] eqn:Es;
      [now apply split_nonempty in Es |].
    inversion Hws as [|? ? [Hw0 _] _]; subst.
    destruct (clean_word_facts w0 Hw0) as (_ & _ & Hl & Hr).
    simpl wrap_words.
    change (EmptyString ++ String " " w0) with (String " " w0).
    rewrite strip_after_space. unfold strip at 1 2. rewrite Hl, Hr.
    assert (H0 : measure w0 < max_width - 20) by (apply Hfit; now left).
    apply Z.ltb_lt in H0 as H0b. rewrite H0b.
    apply wrap_words_Forall; auto.
    intros w Hin. apply Hfit. now right.
Qed.

Lemma wrap_lines_fit_or_single_word_witness :
  clean_item "the quick brown fox jumps over the lazy dog" = true
  /\ rejoined (wrap_text (fixed_pitch font_body) 100
                 "the quick brown fox jumps over the lazy dog")
     = "the quick brown fox jumps over the lazy dog"
  /\ Forall (fun line => fixed_pitch font_body line < 100 - 20)
       (wrap_text (fixed_pitch font_body) 100
          "the quick brown fox jumps over the lazy dog").
Proof.
  destruct (wrap_lines_fit_or_single_word (fixed_pitch font_body) 100
              "the quick brown fox jumps over the lazy dog") as (_ & H2 & H3).
  split; [reflexivity | split].
  - apply H2. reflexivity.
  - apply H3; [reflexivity |].
    intros w Hin. vm_compute in Hin.
    repeat (destruct Hin as [<- | Hin]; [reflexivity |]). contradiction.
Defined.

(** ** C2, C8: the defaulted reads *)

(** Reduce the projections of a record that is given by its fields. *)
Ltac project_fields :=
  cbn [fst snd persona_name estimated_age occupation status likely_location
       archetype mbti_personality frustrations likings motivations
       behavior_habits goals_needs item citation_url].

Lemma dict_get_absent (d : dict) (key : string) (default : pyval) :
  has_key d key = false -> dict_get d key default = default.
Proof.
  induction d as [|[k v] d IH]; simpl; [reflexivity |].
  intros H. apply orb_false_iff in H as [Hk Hd]. rewrite Hk. auto.
Qed.

Lemma read_observation_shaped (e : pyval) :
  element_shaped e = true ->
  exists o, read_observation e = inr o /\ well_formed_observation o = true.
Proof.
  destruct e as [| | | | |d]; try discriminate. simpl. intros H.
  eexists. split; [reflexivity | exact H].
Qed.

Lemma read_observations_shaped (l : list pyval) :
  forallb element_shaped l = true ->
  exists os, read_observations l = inr os
             /\ forallb well_formed_observation os = true.
Proof.
  induction l as [|e l IH]; simpl; intros H.
  - exists []. auto.
  - apply andb_true_iff in H as [He Hl].
    destruct (read_observation_shaped e He) as (o & Eo & Ho).
    destruct (IH Hl) as (os & Eos & Hos).
    exists (o :: os). rewrite Eo, Eos. simpl. rewrite Ho, Hos. auto.
Qed.

Lemma read_section_shaped (items : pyval) :
  section_shaped items = true ->
  exists os, read_section items = inr os
             /\ forallb well_formed_observation os = true.
Proof.
  unfold section_shaped, read_section. intros H.
  destruct (truthy items) eqn:T; simpl in *.
  - destruct items as [| | | |l|]; try discriminate.
    simpl. now apply read_observations_shaped.
  - exists []. auto.
Qed.

Lemma read_observations_objects (os : list Observation) :
  read_observations (map observation_object os) = inr os.
Proof.
  induction os as [|[i c] os IH]; simpl; [reflexivity |].
  rewrite IH. reflexivity.
Qed.

Lemma read_section_objects (os : list Observation) :
  read_section (PList (map observation_object os)) = inr os.
Proof.
  destruct os as [|o os]; [reflexivity |].
  unfold read_section. simpl truthy. cbv iota. simpl negb. cbv iota.
  simpl py_iter. unfold and_then at 1.
  apply (read_observations_objects (o :: os)).
Qed.

(** C2 as first stated fails.  A scalar key that holds the empty string
    is read as the empty string, not as a non-empty one; and a list key
    that holds a string is not replaced by the empty list: its characters
    are iterated and the read of [item] raises. *)
Lemma normalize_keeps_present_values :
  ~ normalize_total [("estimated_age", PStr EmptyString)]
  /\ ~ normalize_total [("frustrations", PStr "abc")]
  /\ normalize (PDict [("frustrations", PStr "abc")]) = inl AttributeError.
Proof.
  split; [| split].
  - intros (r & E & W). vm_compute in E. injection E as <-.
    vm_compute in W. discriminate.
  - intros (r & E & _). vm_compute in E. discriminate.
  - reflexivity.
Qed.

(** C2, amended.  On every object (the empty one included) in which a
    scalar key, when present, holds a non-empty string, a list key, when
    present, holds a falsy value or a list of objects, and [item] and
    [citation_url], when present, hold strings, the reads succeed and
    give a record whose scalars are non-empty strings and whose lists hold
    observations with string fields; a scalar whose key is absent is
    [N/A], a list whose key is absent is empty, and in any object read as
    an observation an absent [item] is [N/A] and an absent
    [citation_url] is the empty string. *)
Theorem normalize_total_on_shaped (d : dict) :
  shaped d = true ->
  exists r,
    normalize (PDict d) = inr r
    /\ well_formed r = true
    /\ Forall (fun f => has_key d (fst f) = false -> snd f r = PStr "N/A")
         scalar_fields
    /\ Forall (fun f => has_key d (fst f) = false -> snd f r = [])
         list_fields
    /\ (forall e : dict,
          exists o, read_observation (PDict e) = inr o
            /\ (has_key e "item" = false -> item o = PStr "N/A")
            /\ (has_key e "citation_url" = false ->
                citation_url o = PStr EmptyString)).
Proof.
  unfold shaped. intros H. apply andb_true_iff in H as [Hs Hl].
  cbn [forallb scalar_fields list_fields fst] in Hs, Hl.
  repeat (apply andb_true_iff in Hs as [? Hs]).
  repeat (apply andb_true_iff in Hl as [? Hl]).
  repeat match goal with
         | H : section_shaped _ = true |- _ =>
             apply read_section_shaped in H; destruct H as (? & ? & ?)
         end.
  eexists. split.
  { unfold normalize, read_scalar, read_list, py_get.
    cbn [and_then].
    repeat match goal with
           | H : read_section _ = inr _ |- _ => rewrite H; clear H
           end.
    cbn [and_then]. reflexivity. }
  split.
  { unfold well_formed. clear Hs Hl.
    cbn [forallb scalar_fields list_fields]. project_fields.
    repeat match goal with
           | H : _ = true |- _ => rewrite H; clear H
           end.
    reflexivity. }
  split; [| split].
  - repeat constructor; project_fields; intros Hk;
      now rewrite dict_get_absent.
  - repeat constructor; project_fields; intros Hk;
      match goal with
      | H : read_section (dict_get d ?k _) = inr ?os |- ?os = [] =>
          rewrite (dict_get_absent d k _ Hk) in H;
          now injection H as <-
      end.
  - intros e. eexists. split; [reflexivity |]. cbn [item citation_url].
    split; intros Hk; now rewrite dict_get_absent.
Qed.

Lemma normalize_total_on_shaped_witness :
  shaped [("persona_name", PStr "Alex S.");
          ("frustrations", PList [PDict [("item", PStr "Dislikes noise")]]);
          ("likings", PNone)] = true
  /\ exists r,
      normalize (PDict [("persona_name", PStr "Alex S.");
                        ("frustrations",
                         PList [PDict [("item", PStr "Dislikes noise")]]);
                        ("likings", PNone)]) = inr r
      /\ well_formed r = true.
Proof.
  split; [reflexivity |].
  destruct (normalize_total_on_shaped
              [("persona_name", PStr "Alex S.");
               ("frustrations", PList [PDict [("item", PStr "Dislikes noise")]]);
               ("likings", PNone)] eq_refl) as (r & E & W & _).
  exists r. split; assumption.
Defined.

(** The empty object is read to the record of defaults. *)
Example normalize_empty_object :
  normalize (PDict [])
  = inr {| persona_name := PStr "N/A"; estimated_age := PStr "N/A";
           occupation := PStr "N/A"; status := PStr "N/A";
           likely_location := PStr "N/A"; archetype := PStr "N/A";
           mbti_personality := PStr "N/A"; frustrations := [];
           likings := []; motivations := []; behavior_habits := [];
           goals_needs := [] |}.
Proof. reflexivity. Qed.

(** The renderer itself returns at line 180 on the empty object, before
    any field is read or anything is drawn, and [main] takes the empty
    object for a parsing failure. *)
Example empty_object_is_not_drawn
    (text_width : font -> string -> Z) (py_str : pyval -> string) :
  generate_persona_image text_width py_str (PDict []) = ([], inr NoData)
  /\ main_tail text_width py_str json_loads_model (Some "{}")
     = ParsingFailureReported.
Proof. split; reflexivity. Qed.

(** C8.  The reads are a function of the object read, and a record that
    has been read is a fixed point: written back as an object and read
    again it is the same record.  So reading twice gives what reading once
    gives. *)
Theorem normalize_idempotent :
  (forall r : PersonaRecord, normalize (record_object r) = inr r)
  /\ (forall (persona_data : pyval) (r : PersonaRecord),
        normalize persona_data = inr r ->
        normalize (record_object r) = normalize persona_data).
Proof.
  assert (H : forall r, normalize (record_object r) = inr r).
  { intros [name age occ sta loc arc mbti fru lik mot beh goa].
    unfold normalize, record_object, read_scalar, read_list, py_get.
    cbn [map app scalar_fields list_fields]. project_fields.
    cbn [dict_get String.eqb Ascii.eqb Bool.eqb and_then].
    rewrite !read_section_objects. reflexivity. }
  split; [exact H |].
  intros persona_data r E. rewrite E. apply H.
Qed.

Lemma normalize_idempotent_witness :
  normalize (PDict [("estimated_age", PInt 30); ("goals_needs", PNone)])
  = inr {| persona_name := PStr "N/A"; estimated_age := PInt 30;
           occupation := PStr "N/A"; status := PStr "N/A";
           likely_location := PStr "N/A"; archetype := PStr "N/A";
           mbti_personality := PStr "N/A"; frustrations := [];
           likings := []; motivations := []; behavior_habits := [];
           goals_needs := [] |}
  /\ normalize
       (record_object
          {| persona_name := PStr "N/A"; estimated_age := PInt 30;
             occupation := PStr "N/A"; status := PStr "N/A";
             likely_location := PStr "N/A"; archetype := PStr "N/A";
             mbti_personality := PStr "N/A"; frustrations := [];
             likings := []; motivations := []; behavior_habits := [];
             goals_needs := [] |})
     = normalize (PDict [("estimated_age", PInt 30); ("goals_needs", PNone)]).
Proof.
  split; [reflexivity |].
  apply (proj2 normalize_idempotent). reflexivity.
Defined.

(** ** C6: the cursor *)

Lemma nondecreasing_app (l1 l2 : list Z) :
  nondecreasing l1 -> nondecreasing l2 ->
  (forall a b, In a l1 -> In b l2 -> a <= b) ->
  nondecreasing (l1 ++ l2).
Proof.
  induction l1 as [|a l1 IH]; simpl; intros H1 H2 H; [assumption |].
  destruct H1 as [Ha H1]. split.
  - apply Forall_app; split; [assumption |].
    apply Forall_forall. intros b Hb. apply H; auto.
  - apply IH; auto.
Qed.

Lemma tracks_ret {A : Type} (cur : A -> Z) (y : Z) (a : A) :
  y <= cur a -> tracks cur y (ret a).
Proof. intros H. unfold tracks; simpl. repeat split; auto. Qed.

Lemma tracks_lift {A : Type} (y : Z) (r : exn + A) :
  tracks (fun _ => y) y (lift r).
Proof.
  unfold tracks; simpl. repeat split; auto. destruct r; auto.
  split; [lia | constructor].
Qed.

Lemma tracks_draw_text (y0 x y : Z) (text : pyval) (c : color) (f : font) :
  y0 <= y -> tracks (fun _ => y) y0 (draw_text x y text c f).
Proof.
  intros H. destruct text; try apply (tracks_ret (fun _ => y)); auto;
    try (unfold tracks; simpl; repeat split; auto; fail).
  unfold tracks; simpl. repeat split; auto; try lia.
  repeat constructor. lia.
Qed.

Lemma tracks_bind {A B : Type} (curA : A -> Z) (curB : B -> Z) (y : Z)
    (m : M A) (k : A -> M B) :
  tracks curA y m ->
  (forall a, snd m = inr a -> tracks curB (curA a) (k a)) ->
  tracks curB y (bind m k).
Proof.
  destruct m as [ops [e | a]]; unfold tracks; simpl;
    intros (Hn & Hlo & Hhi) Hk.
  - repeat split; auto.
  - destruct Hhi as [Hya Hhi].
    specialize (Hk a eq_refl). destruct (k a) as [ops' r]; simpl in *.
    destruct Hk as (Hn' & Hlo' & Hhi').
    unfold cursor_trace in *. rewrite map_app.
    rewrite Forall_forall in Hlo, Hhi, Hlo'.
    split; [| split].
    + apply nondecreasing_app; auto.
      intros u v Hu Hv. specialize (Hhi u Hu). specialize (Hlo' v Hv). lia.
    + apply Forall_app. split; apply Forall_forall; intros v Hv.
      * now apply Hlo.
      * specialize (Hlo' v Hv). lia.
    + destruct r as [e | b]; [exact I |].
      destruct Hhi' as [Hab Hhi']. split; [lia |].
      apply Forall_app. split; [| assumption].
      apply Forall_forall. intros v Hv. specialize (Hhi v Hv). lia.
Qed.

(** One step of a proof that a computation tracks the cursor. *)
Ltac track_step :=
  lazymatch goal with
  | |- tracks _ _ (ret _) => apply tracks_ret; cbv beta; simpl; lia
  | |- tracks _ _ (lift _) => apply tracks_lift
  | |- tracks _ _ (draw_text _ _ _ _ _) => apply tracks_draw_text; lia
  | |- tracks _ _ (bind ?m _) =>
      lazymatch type of m with
      | M Z => eapply (tracks_bind (fun v : Z => v))
      | _ => eapply tracks_bind
      end; [ | intros ? _; cbv beta ]
  | |- tracks _ _ (if ?b then _ else _) => destruct b
  end.

Lemma draw_lines_tracks (lines : list string) (x y0 y : Z) (first : bool)
    (body_font : font) (text_color : color) :
  y0 <= y ->
  tracks (fun v => v) y0 (draw_lines x y first lines body_font text_color).
Proof.
  revert y0 y first. induction lines as [|line lines IH];
    intros y0 y first H; cbn [draw_lines].
  - track_step.
  - repeat track_step. apply IH. lia.
Qed.

Lemma draw_info_tracks (info_items : list string) (x_margin y0 y : Z) :
  y0 <= y -> tracks (fun v => v) y0 (draw_info x_margin y info_items).
Proof.
  revert y0 y. induction info_items as [|i info_items IH];
    intros y0 y H; cbn [draw_info].
  - track_step.
  - repeat track_step. apply IH. lia.
Qed.

Section Cursor.

Variable text_width : font -> string -> Z.
Variable py_str : pyval -> string.

Lemma draw_item_tracks (x y0 y : Z) (item_data : pyval)
    (body_font : font) (text_color : color) (max_width : Z) :
  y0 <= y ->
  tracks (fun v => v) y0
    (draw_item text_width x y item_data body_font text_color max_width).
Proof.
  intros H. unfold draw_item.
  repeat first [ track_step | apply draw_lines_tracks; lia ].
Qed.

Lemma draw_items_tracks (elements : list pyval) (x y0 y : Z)
    (body_font : font) (text_color : color) (max_width : Z) :
  y0 <= y ->
  tracks (fun v => v) y0
    (draw_items text_width x y elements body_font text_color max_width).
Proof.
  revert y0 y. induction elements as [|e elements IH];
    intros y0 y H; cbn [draw_items].
  - track_step.
  - track_step; [apply draw_item_tracks; lia | apply IH; lia].
Qed.

Lemma draw_bullet_section_tracks (x y0 y : Z) (title : string)
    (items : pyval) (header_font body_font : font) (text_color : color)
    (max_width : Z) :
  y0 <= y ->
  tracks (fun v => v) y0
    (draw_bullet_section text_width x y title items header_font body_font
       text_color max_width).
Proof.
  intros H. unfold draw_bullet_section.
  repeat first [ track_step | apply draw_items_tracks; lia ].
Qed.

Lemma generate_persona_image_tracks (persona_data : pyval) :
  tracks final_cursor 40
    (generate_persona_image text_width py_str persona_data).
Proof.
  unfold generate_persona_image.
  destruct (negb (truthy persona_data)).
  - apply tracks_ret. simpl. lia.
  - cbv zeta.
    repeat first [ track_step
                 | apply draw_info_tracks; lia
                 | apply draw_bullet_section_tracks; lia ].
Qed.

(** C6.  In a render pass over any value, the cursor values at which
    the pass draws, taken in drawing order, never decrease; they start
    at 40, and when the pass reaches the end the cursor it leaves is at
    or beyond every one of them. *)
Theorem cursor_never_goes_back (persona_data : pyval) :
  nondecreasing
    (cursor_trace
       (fst (generate_persona_image text_width py_str persona_data)))
  /\ Forall (Z.le 40)
       (cursor_trace
          (fst (generate_persona_image text_width py_str persona_data)))
  /\ forall y_offset,
      snd (generate_persona_image text_width py_str persona_data)
      = inr (Saved y_offset) ->
      Forall (fun y => y <= y_offset)
        (cursor_trace
           (fst (generate_persona_image text_width py_str persona_data))).
Proof.
  destruct (generate_persona_image_tracks persona_data) as (Hn & Hlo & Hhi).
  split; [exact Hn | split; [exact Hlo |]].
  intros y_offset E. rewrite E in Hhi. apply Hhi.
Qed.

End Cursor.

(** ** The render pass on shaped objects

    On the objects of C2's amended statement the pass raises nothing: the
    reads it makes are the reads of [normalize], and the values read have
    the shapes the drawing code relies on. *)

Lemma succeeds_bind {A B : Type} (m : M A) (k : A -> M B) (a : A) :
  snd m = inr a -> succeeds (k a) -> succeeds (bind m k).
Proof.
  destruct m as [ops r]; simpl. intros -> [b Hb].
  destruct (k a) as [ops' r']; simpl in *. now exists b.
Qed.

Lemma succeeds_ret {A : Type} (a : A) : succeeds (ret a).
Proof. now exists a. Qed.

(** One step of a proof that a computation succeeds. *)
Ltac succeed_step :=
  lazymatch goal with
  | |- succeeds (ret _) => apply succeeds_ret
  | |- succeeds (bind _ _) =>
      eapply succeeds_bind; [simpl; reflexivity | cbv beta]
  end.

Lemma draw_lines_succeeds (lines : list string) (x y : Z) (first : bool)
    (body_font : font) (text_color : color) :
  succeeds (draw_lines x y first lines body_font text_color).
Proof.
  revert y first. induction lines as [|line lines IH]; intros y first;
    cbn [draw_lines].
  - succeed_step.
  - succeed_step. apply IH.
Qed.

Lemma draw_info_succeeds (info_items : list string) (x_margin y : Z) :
  succeeds (draw_info x_margin y info_items).
Proof.
  revert y. induction info_items as [|i info_items IH]; intros y;
    cbn [draw_info].
  - succeed_step.
  - succeed_step. apply IH.
Qed.

Section Totality.

Variable text_width : font -> string -> Z.
Variable py_str : pyval -> string.

Lemma format_info_dict (d : dict) (fields : list (string * string)) :
  exists lines, format_info py_str (PDict d) fields = inr lines.
Proof.
  induction fields as [|[label key] fields [lines IH]]; simpl.
  - now exists [].
  - rewrite IH. eauto.
Qed.

Lemma draw_item_succeeds (x y : Z) (item_data : pyval)
    (body_font : font) (text_color : color) (max_width : Z) :
  element_shaped item_data = true ->
  succeeds (draw_item text_width x y item_data body_font text_color max_width).
Proof.
  destruct item_data as [| | | | |d]; try discriminate.
  cbn [element_shaped]. intros H. apply andb_true_iff in H as [Hi Hc].
  unfold draw_item, read_observation, py_get. cbn [and_then].
  succeed_step. project_fields.
  destruct (dict_get d "item" (PStr "N/A")) as [| | |s| |]; try discriminate.
  destruct (dict_get d "citation_url" (PStr EmptyString)) as [| | |c| |];
    try discriminate.
  succeed_step.
  destruct (draw_lines_succeeds
              (wrap_words (text_width body_font) max_width (split " " s) []
                 EmptyString) x y true body_font text_color) as [y' Ey].
  eapply succeeds_bind; [exact Ey | cbv beta].
  destruct (truthy (PStr c)); repeat succeed_step.
Qed.

Lemma draw_items_succeeds (elements : list pyval) (x y : Z)
    (body_font : font) (text_color : color) (max_width : Z) :
  forallb element_shaped elements = true ->
  succeeds (draw_items text_width x y elements body_font text_color max_width).
Proof.
  revert y. induction elements as [|e elements IH]; intros y H;
    cbn [draw_items].
  - succeed_step.
  - simpl in H. apply andb_true_iff in H as [He Hl].
    destruct (draw_item_succeeds x y e body_font text_color max_width He)
      as [y' Ey].
    eapply succeeds_bind; [exact Ey | now apply IH].
Qed.

Lemma draw_bullet_section_succeeds (x y : Z) (title : string) (items : pyval)
    (header_font body_font : font) (text_color : color) (max_width : Z) :
  section_shaped items = true ->
  succeeds (draw_bullet_section text_width x y title items header_font
              body_font text_color max_width).
Proof.
  unfold section_shaped, draw_bullet_section. intros H.
  succeed_step.
  destruct (truthy items) eqn:T; cbn [negb] in *.
  - destruct items as [| | | |l|]; try discriminate. simpl in H.
    destruct (draw_items_succeeds l x (y + 25) body_font text_color
                max_width H) as [y' Ey].
    eapply succeeds_bind; [| succeed_step].
    unfold bind, lift, py_iter.
    destruct (draw_items text_width x (y + 25) l body_font text_color
                max_width) as [ops r].
    simpl in *. exact Ey.
  - repeat succeed_step.
Qed.

(** On a shaped object the render pass raises nothing. *)
Lemma generate_persona_image_succeeds (d : dict) :
  shaped d = true ->
  succeeds (generate_persona_image text_width py_str (PDict d)).
Proof.
  unfold shaped. intros H. apply andb_true_iff in H as [Hs Hl].
  cbn [forallb scalar_fields list_fields fst] in Hs, Hl.
  apply andb_true_iff in Hs as [Hname _].
  repeat (apply andb_true_iff in Hl as [? Hl]).
  unfold generate_persona_image.
  destruct (negb (truthy (PDict d))); [apply succeeds_ret |].
  cbv zeta. unfold py_get.
  succeed_step. succeed_step.
  destruct (dict_get d "persona_name" (PStr "N/A")) as [| | |s| |];
    try discriminate.
  succeed_step. succeed_step.
  destruct (format_info_dict d info_fields) as [lines El].
  eapply succeeds_bind; [simpl; exact El | cbv beta].
  destruct (draw_info_succeeds lines 60 (40 + 60 + 40 + 30)) as [y1 E1].
  eapply succeeds_bind; [exact E1 | cbv beta].
  repeat match goal with
         | |- succeeds (bind (lift _) _) => succeed_step
         | H : section_shaped (dict_get d ?k _) = true
           |- succeeds (bind (draw_bullet_section _ ?x ?y ?t
                                (dict_get d ?k _) ?h ?b ?c ?w) _) =>
             let y' := fresh "y" in
             let E := fresh "E" in
             destruct (draw_bullet_section_succeeds x y t _ h b c w H)
               as [y' E];
             eapply succeeds_bind; [exact E | cbv beta]; clear H
         end.
  apply succeeds_ret.
Qed.

End Totality.

(** The cursor values of the render pass on the parsed scenario. *)
Example scenario_a_cursor_trace :
  match extract json_loads_model scenario_a with
  | Parsed persona_data =>
      let run := generate_persona_image fixed_pitch str_of_str persona_data in
      cursor_trace (fst run)
      = [40; 100; 140; 170; 195; 220; 245; 270; 295; 340; 365; 385; 423;
         448; 493; 518; 563; 588; 633; 658]
      /\ snd run = inr (Saved 703)
  | _ => False
  end.
Proof. vm_compute. split; reflexivity. Qed.

(* ================================================================= *)
(** * Further properties of the code *)

(** ** [extract_username] and the citation segment *)

Lemma last_app_nonempty {A : Type} (l1 l2 : list A) (d : A) :
  l2 <> [] -> last (l1 ++ l2) d = last l2 d.
Proof.
  intros H. induction l1 as [|a l1 IH]; [reflexivity |].
  simpl. destruct (l1 ++ l2)%list eqn:E; [| exact IH].
  apply app_eq_nil in E. tauto.
Qed.

Lemma last_in {A : Type} (l : list A) (d : A) : l <> [] -> In (last l d) l.
Proof.
  induction l as [|a l IH]; [congruence |]. intros _.
  destruct l as [|b l]; [now left | right; apply IH; discriminate].
Qed.

Lemma last_split_no_sep (sep : ascii) (s : string) :
  contains sep (last (split sep s) EmptyString) = false.
Proof.
  pose proof (split_no_sep sep s) as H. rewrite Forall_forall in H.
  apply H, last_in, split_nonempty.
Qed.

Lemma last_split_append (sep : ascii) (a b : string) :
  last (split sep (a ++ String sep b)) EmptyString
  = last (split sep b) EmptyString.
Proof. rewrite split_append. apply last_app_nonempty, split_nonempty. Qed.

Lemma rstrip_char_drops (c : ascii) (u : string) :
  rstrip_char c (u ++ String c EmptyString) = rstrip_char c u.
Proof.
  induction u as [|a u IH]; simpl.
  - now rewrite Ascii.eqb_refl.
  - now rewrite IH.
Qed.

Lemma rstrip_char_keeps (c : ascii) (w : string) :
  w <> EmptyString -> contains c w = false -> rstrip_char c w = w.
Proof.
  induction w as [|a w IH]; [congruence |]. intros _ H. simpl in *.
  apply orb_false_iff in H as [Ha Hw].
  destruct w as [|b w].
  - simpl. now rewrite Ha.
  - rewrite IH by (discriminate || assumption). reflexivity.
Qed.

Lemma rstrip_char_keeps_tail (c : ascii) (x w : string) :
  rstrip_char c w = w -> w <> EmptyString ->
  rstrip_char c (x ++ w) = x ++ w.
Proof.
  intros Hw Hne. induction x as [|a x IH]; simpl; [exact Hw |].
  rewrite IH. destruct (x ++ w) eqn:E; [| reflexivity].
  apply append_eq_empty in E. tauto.
Qed.

(** X1.  [extract_username] ignores a slash at the end of the URL, and
    gives the text after the last slash that is left: on [p/name], with
    [name] not empty and free of slashes, it gives [name]. *)
Theorem extract_username_last_segment :
  (forall url : string,
      extract_username (url ++ "/") = extract_username url)
  /\ (forall p name : string,
        name <> EmptyString -> contains "/" name = false ->
        extract_username (p ++ "/" ++ name) = name).
Proof.
  split.
  - intros url. unfold extract_username. now rewrite rstrip_char_drops.
  - intros p name Hne Hn. unfold extract_username.
    change (p ++ "/" ++ name) with (p ++ String "/" name).
    replace (p ++ String "/" name) with ((p ++ "/") ++ name)
      by (rewrite append_assoc; reflexivity).
    rewrite rstrip_char_keeps_tail
      by (try apply rstrip_char_keeps; assumption).
    rewrite append_assoc. change ("/" ++ name) with (String "/" name).
    rewrite last_split_append, split_single by assumption. reflexivity.
Qed.

Lemma extract_username_last_segment_witness :
  extract_username ("https://www.reddit.com/user" ++ "/" ++ "spez") = "spez"
  /\ extract_username ("https://www.reddit.com/user/spez" ++ "/")
     = extract_username "https://www.reddit.com/user/spez".
Proof.
  split.
  - apply (proj2 extract_username_last_segment); [discriminate | reflexivity].
  - apply (proj1 extract_username_last_segment).
Defined.

(** X2.  The name [extract_username] gives never holds a slash, and
    applying the function to its own result changes nothing. *)
Theorem extract_username_idempotent (url : string) :
  contains "/" (extract_username url) = false
  /\ extract_username (extract_username url) = extract_username url.
Proof.
  assert (H : contains "/" (extract_username url) = false)
    by apply last_split_no_sep.
  split; [exact H |].
  destruct (extract_username url) as [|a n] eqn:E; [reflexivity |].
  unfold extract_username at 1.
  rewrite rstrip_char_keeps by (discriminate || assumption).
  now rewrite split_single.
Qed.

(** X3.  The segment shown for a citation is the text after the last
    slash of the URL: on [p/seg] with [seg] free of slashes it is [seg],
    so for a URL that ends in a slash (as Reddit permalinks do) it is
    empty; and it never holds a slash. *)
Theorem citation_segment_after_last_slash :
  (forall p seg : string,
      contains "/" seg = false -> citation_segment (p ++ "/" ++ seg) = seg)
  /\ (forall url : string, citation_segment (url ++ "/") = EmptyString)
  /\ (forall url : string, contains "/" (citation_segment url) = false).
Proof.
  unfold citation_segment. split; [| split].
  - intros p seg H. change (p ++ "/" ++ seg) with (p ++ String "/" seg).
    now rewrite last_split_append, split_single.
  - intros url. change (url ++ "/") with (url ++ String "/" EmptyString).
    now rewrite last_split_append.
  - intros url. apply last_split_no_sep.
Qed.

Lemma citation_segment_after_last_slash_witness :
  citation_segment ("https://reddit.com/r/x/comments" ++ "/" ++ "abc") = "abc".
Proof.
  apply (proj1 citation_segment_after_last_slash). reflexivity.
Defined.

(** ** More on the extractor *)

Lemma contains_append (c : ascii) (a b : string) :
  contains c (a ++ b) = contains c a || contains c b.
Proof.
  induction a as [|x a IH]; simpl; [reflexivity |].
  rewrite IH. now rewrite orb_assoc.
Qed.

Lemma substring_all (t : string) : substring 0 (String.length t) t = t.
Proof.
  pose proof (substring_take t EmptyString) as H.
  now rewrite append_empty_r in H.
Qed.

(** The payload between the first opening and the last closing brace. *)
Lemma isolate_payload_between (a b c : string) :
  contains "{" a = false -> contains "}" c = false ->
  isolate_payload (a ++ "{" ++ b ++ "}" ++ c) = "{" ++ b ++ "}".
Proof.
  intros Ha Hc. unfold isolate_payload, find, rfind.
  change (a ++ "{" ++ b ++ "}" ++ c) with (a ++ String "{" (b ++ String "}" c)).
  rewrite find_from_first by assumption.
  replace (a ++ String "{" (b ++ String "}" c))
    with ((a ++ String "{" b) ++ String "}" c)
    by (rewrite append_assoc; reflexivity).
  rewrite rfind_from_last by (lia || assumption).
  pose proof (length_append a (String "{" b)) as Hlu. simpl in Hlu.
  pose proof (length_append (a ++ String "{" b) (String "}" c)) as Hlen.
  simpl in Hlen.
  set (la := String.length a) in *.
  set (lu := String.length (a ++ String "{" b)) in *.
  replace (negb (0 + Z.of_nat la =? -1) && negb (0 + Z.of_nat lu =? -1))
    with true
    by (symmetry; apply andb_true_iff; split;
        apply negb_true_iff, Z.eqb_neq; lia).
  unfold py_slice, slice_index. rewrite Hlen.
  destruct (0 + Z.of_nat la <? 0) eqn:E1; [apply Z.ltb_lt in E1; lia |].
  destruct (0 + Z.of_nat lu + 1 <? 0) eqn:E2; [apply Z.ltb_lt in E2; lia |].
  replace (Z.to_nat (Z.min (0 + Z.of_nat la)
                       (Z.of_nat (lu + S (String.length c)))))
    with la by lia.
  replace (Z.to_nat (Z.min (0 + Z.of_nat lu + 1)
                       (Z.of_nat (lu + S (String.length c)))
                     - Z.min (0 + Z.of_nat la)
                         (Z.of_nat (lu + S (String.length c)))))
    with (String.length ("{" ++ b ++ "}"))
    by (rewrite length_append, length_append; simpl; lia).
  rewrite !append_assoc. unfold la. rewrite substring_skip.
  replace (String "{" b ++ String "}" c) with (("{" ++ b ++ "}") ++ c)
    by (simpl; rewrite append_assoc; reflexivity).
  apply substring_take.
Qed.

(** With the last closing brace before the first opening one, nothing. *)
Lemma isolate_payload_reversed (text : string) :
  find "{" text <> -1 -> rfind "}" text <> -1 ->
  rfind "}" text < find "{" text ->
  isolate_payload text = EmptyString.
Proof.
  unfold isolate_payload, find, rfind. intros Ho Hc Hrev.
  destruct (find_from_range "{" text 0) as [Ha | Ha]; [congruence |].
  destruct (rfind_from_range "}" text 0) as [Hb | Hb]; [congruence |].
  replace (negb (find_from "{" text 0 =? -1)
           && negb (rfind_from "}" text 0 =? -1)) with true
    by (symmetry; apply andb_true_iff; split;
        apply negb_true_iff, Z.eqb_neq; lia).
  unfold py_slice, slice_index.
  destruct (find_from "{" text 0 <? 0) eqn:E1; [apply Z.ltb_lt in E1; lia |].
  destruct (rfind_from "}" text 0 + 1 <? 0) eqn:E2;
    [apply Z.ltb_lt in E2; lia |].
  match goal with
  | |- substring _ (Z.to_nat ?n) _ = _ => replace (Z.to_nat n) with 0%nat by lia
  end.
  apply substring_zero.
Qed.

(** Where [find] and [rfind] point. *)
Lemma find_from_split (c : ascii) (s : string) (i : Z) :
  find_from c s i <> -1 ->
  exists p t, s = p ++ String c t /\ contains c p = false
              /\ find_from c s i = i + Z.of_nat (String.length p).
Proof.
  revert i. induction s as [|a s IH]; intros i H; simpl in *; [congruence |].
  destruct (Ascii.eqb a c) eqn:E.
  - apply Ascii.eqb_eq in E; subst a.
    exists EmptyString, s. simpl. repeat split; lia.
  - destruct (IH (i + 1) H) as (p & t & -> & Hp & Hi).
    exists (String a p), t. simpl. rewrite E, Hp, Hi.
    repeat split; lia.
Qed.

Lemma rfind_from_split (c : ascii) (s : string) (i : Z) :
  0 <= i -> rfind_from c s i <> -1 ->
  exists u q, s = u ++ String c q /\ contains c q = false
              /\ rfind_from c s i = i + Z.of_nat (String.length u).
Proof.
  revert i. induction s as [|a s IH]; intros i Hi H; simpl in *; [congruence |].
  destruct (rfind_from c s (i + 1) =? -1) eqn:E.
  - apply Z.eqb_eq in E. destruct (Ascii.eqb a c) eqn:Ea; [| congruence].
    apply Ascii.eqb_eq in Ea; subst a.
    exists EmptyString, s. simpl. split; [reflexivity |]. split; [| lia].
    apply (rfind_from_absent c s (i + 1)); [lia | exact E].
  - apply Z.eqb_neq in E.
    destruct (IH (i + 1) ltac:(lia) E) as (u & q & -> & Hq & Hu).
    exists (String a u), q. simpl. rewrite Hu. repeat split; auto; lia.
Qed.

(** Two ways of cutting one string. *)
Lemma append_cut (p : string) (x : ascii) (t u y : string) :
  p ++ String x t = u ++ y ->
  (String.length p < String.length u)%nat ->
  exists m, u = p ++ String x m /\ t = m ++ y.
Proof.
  revert u. induction p as [|a p IH]; intros u E L; simpl in *.
  - destruct u as [|b u]; simpl in *; [lia |].
    injection E as -> ->. now exists u.
  - destruct u as [|b u]; simpl in *; [lia |].
    injection E as -> E. destruct (IH u E ltac:(lia)) as (m & -> & ->).
    now exists m.
Qed.

Lemma append_same_length (p u : string) (x y : ascii) (t q : string) :
  p ++ String x t = u ++ String y q ->
  String.length p = String.length u -> x = y.
Proof.
  revert u. induction p as [|a p IH]; intros u E L;
    destruct u as [|b u]; simpl in *; try discriminate.
  - now injection E.
  - injection E as _ E. injection L as L. eauto.
Qed.

(** The first opening and the last closing brace of a text that has
    both, in that order. *)
Lemma braces_in_order (text : string) :
  contains "{" text = true -> contains "}" text = true ->
  find "{" text <= rfind "}" text ->
  exists p m q,
    text = p ++ "{" ++ m ++ "}" ++ q
    /\ contains "{" p = false /\ contains "}" q = false.
Proof.
  unfold find, rfind. intros Ho Hc Hord.
  assert (Ho' : find_from "{" text 0 <> -1).
  { intros E. apply find_from_absent in E; [congruence | lia]. }
  assert (Hc' : rfind_from "}" text 0 <> -1).
  { intros E. apply rfind_from_absent in E; [congruence | lia]. }
  destruct (find_from_split _ _ _ Ho') as (p & t & Ep & Hp & Hfp).
  destruct (rfind_from_split "}" text 0 ltac:(lia) Hc')
    as (u & q & Eu & Hq & Hfu).
  assert (L : (String.length p < String.length u)%nat).
  { destruct (Nat.eq_dec (String.length p) (String.length u)) as [El | Nl].
    - rewrite Ep in Eu.
      pose proof (append_same_length _ _ _ _ _ _ Eu El). discriminate.
    - lia. }
  rewrite Ep in Eu. destruct (append_cut _ _ _ _ _ Eu L) as (m & -> & ->).
  exists p, m, q. repeat split; auto.
Qed.

(** X4.  What isolation gives, case by case.  When either brace does not
    occur, the text itself.  When both occur and the last closing brace
    comes before the first opening one, the empty string.  When both
    occur in order, the text is [p{m}q] with no opening brace in [p] and
    no closing brace in [q], and the result is [{m}].  In every case,
    isolating a second time changes nothing. *)
Theorem isolate_payload_idempotent (text : string) :
  (contains "{" text = false \/ contains "}" text = false ->
   isolate_payload text = text)
  /\ (contains "{" text = true -> contains "}" text = true ->
      rfind "}" text < find "{" text ->
      isolate_payload text = EmptyString)
  /\ (contains "{" text = true -> contains "}" text = true ->
      find "{" text <= rfind "}" text ->
      exists p m q,
        text = p ++ "{" ++ m ++ "}" ++ q
        /\ contains "{" p = false /\ contains "}" q = false
        /\ isolate_payload text = "{" ++ m ++ "}")
  /\ isolate_payload (isolate_payload text) = isolate_payload text.
Proof.
  assert (Habsent : contains "{" text = false \/ contains "}" text = false ->
                    isolate_payload text = text).
  { intros H. unfold isolate_payload, find, rfind. destruct H as [H | H].
    - apply (find_from_absent _ _ 0) in H; [| lia]. rewrite H. reflexivity.
    - apply (rfind_from_absent _ _ 0) in H; [| lia]. rewrite H.
      rewrite andb_false_r. reflexivity. }
  assert (Hrev : contains "{" text = true -> contains "}" text = true ->
                 rfind "}" text < find "{" text ->
                 isolate_payload text = EmptyString).
  { intros Ho Hc Hlt. apply isolate_payload_reversed; [| | exact Hlt].
    - unfold find. intros E. apply find_from_absent in E; [congruence | lia].
    - unfold rfind. intros E.
      apply rfind_from_absent in E; [congruence | lia]. }
  assert (Hord : contains "{" text = true -> contains "}" text = true ->
                 find "{" text <= rfind "}" text ->
                 exists p m q,
                   text = p ++ "{" ++ m ++ "}" ++ q
                   /\ contains "{" p = false /\ contains "}" q = false
                   /\ isolate_payload text = "{" ++ m ++ "}").
  { intros Ho Hc Hle.
    destruct (braces_in_order text Ho Hc Hle) as (p & m & q & E & Hp & Hq).
    exists p, m, q. repeat split; auto.
    rewrite E. now apply isolate_payload_between. }
  split; [exact Habsent | split; [exact Hrev | split; [exact Hord |]]].
  destruct (contains "{" text) eqn:Ho;
    [| rewrite (Habsent (or_introl eq_refl)); apply Habsent; now left].
  destruct (contains "}" text) eqn:Hc;
    [| rewrite (Habsent (or_intror eq_refl)); apply Habsent; now right].
  destruct (Z_lt_ge_dec (rfind "}" text) (find "{" text)) as [Hlt | Hge].
  - rewrite (Hrev eq_refl eq_refl Hlt). reflexivity.
  - destruct (Hord eq_refl eq_refl ltac:(lia))
      as (p & m & q & _ & _ & _ & E).
    rewrite E.
    exact (isolate_payload_between EmptyString m EmptyString eq_refl eq_refl).
Qed.

Lemma isolate_payload_idempotent_witness :
  contains "{" "noise {x{y}z} more" = true
  /\ contains "}" "noise {x{y}z} more" = true
  /\ find "{" "noise {x{y}z} more" <= rfind "}" "noise {x{y}z} more"
  /\ exists p m q,
      "noise {x{y}z} more" = p ++ "{" ++ m ++ "}" ++ q
      /\ isolate_payload "noise {x{y}z} more" = "{" ++ m ++ "}".
Proof.
  assert (H : find "{" "noise {x{y}z} more" <= rfind "}" "noise {x{y}z} more")
    by (vm_compute; discriminate).
  split; [reflexivity | split; [reflexivity | split; [exact H |]]].
  destruct (proj1 (proj2 (proj2
              (isolate_payload_idempotent "noise {x{y}z} more")))
              eq_refl eq_refl H) as (p & m & q & E & _ & _ & Ei).
  exists p, m, q. split; assumption.
Defined.

(** *** The clean-up keeps the object *)

Lemma lstrip_before_brace (p t : string) :
  contains "{" p = false ->
  exists p', lstrip (p ++ String "{" t) = p' ++ String "{" t
             /\ contains "{" p' = false.
Proof.
  induction p as [|a p IH]; intros H.
  - exists EmptyString. auto.
  - simpl in H. apply orb_false_iff in H as [Ha Hp]. simpl.
    destruct (is_space a).
    + now apply IH.
    + exists (String a p). simpl. now rewrite Ha, Hp.
Qed.

Lemma rstrip_nonblank (c : ascii) (q : string) :
  is_space c = false -> rstrip (String c q) = String c (rstrip q).
Proof. intros H. simpl. rewrite H. now destruct (rstrip q). Qed.

Lemma rstrip_append_keep (x w : string) :
  rstrip w <> EmptyString -> rstrip (x ++ w) = x ++ rstrip w.
Proof.
  intros H. induction x as [|a x IH]; simpl; [reflexivity |].
  rewrite IH. destruct (x ++ rstrip w) eqn:E; [| reflexivity].
  apply append_eq_empty in E. tauto.
Qed.

Lemma contains_rstrip (c : ascii) (s : string) :
  contains c s = false -> contains c (rstrip s) = false.
Proof.
  induction s as [|a s IH]; simpl; [auto |]. intros H.
  apply orb_false_iff in H as [Ha Hs]. specialize (IH Hs).
  destruct (rstrip s).
  - destruct (is_space a); simpl; [reflexivity | now rewrite Ha].
  - simpl in *. now rewrite Ha, IH.
Qed.

Lemma rstrip_after_brace (u q : string) :
  contains "}" q = false ->
  exists q', rstrip (u ++ String "}" q) = u ++ String "}" q'
             /\ contains "}" q' = false.
Proof.
  intros H. exists (rstrip q). split; [| now apply contains_rstrip].
  rewrite rstrip_append_keep; rewrite rstrip_nonblank by reflexivity;
    [reflexivity | discriminate].
Qed.

Lemma prefix_inside (f p : string) (c : ascii) (t : string) :
  String.prefix f (p ++ String c t) = true -> contains c f = false ->
  exists p2, p = f ++ p2.
Proof.
  revert p. induction f as [|a f IH]; intros p H Hc.
  - now exists p.
  - simpl in Hc. apply orb_false_iff in Hc as [Ha Hf].
    destruct p as [|x p]; simpl in H.
    + destruct (ascii_dec a c) as [-> | _]; [| discriminate].
      now rewrite Ascii.eqb_refl in Ha.
    + destruct (ascii_dec a x) as [-> | _]; [| discriminate].
      destruct (IH p H Hf) as [p2 ->]. now exists p2.
Qed.

Lemma py_slice_drop (a t : string) :
  py_slice (a ++ t) (Some (Z.of_nat (String.length a))) None = t.
Proof.
  unfold py_slice, slice_index. rewrite length_append.
  destruct (Z.of_nat (String.length a) <? 0) eqn:E;
    [apply Z.ltb_lt in E; lia |].
  replace (Z.to_nat (Z.min (Z.of_nat (String.length a))
                       (Z.of_nat (String.length a + String.length t))))
    with (String.length a) by lia.
  replace (Z.to_nat (Z.of_nat (String.length a + String.length t)
                     - Z.min (Z.of_nat (String.length a))
                         (Z.of_nat (String.length a + String.length t))))
    with (String.length t) by lia.
  rewrite substring_skip. apply substring_all.
Qed.

Lemma py_slice_drop_end (a f : string) :
  f <> EmptyString ->
  py_slice (a ++ f) None (Some (- Z.of_nat (String.length f))) = a.
Proof.
  intros Hf. unfold py_slice, slice_index. rewrite length_append.
  assert (0 < String.length f)%nat by (destruct f; simpl; [congruence | lia]).
  destruct (- Z.of_nat (String.length f) <? 0) eqn:E;
    [| apply Z.ltb_ge in E; lia].
  replace (Z.to_nat (Z.max 0 (- Z.of_nat (String.length f)
                              + Z.of_nat (String.length a + String.length f))
                     - 0))
    with (String.length a) by lia.
  apply substring_take.
Qed.

Lemma substring_split (s : string) (k : nat) :
  (k <= String.length s)%nat ->
  s = substring 0 k s ++ substring k (String.length s - k) s.
Proof.
  revert k. induction s as [|c s IH]; intros [|k] H; simpl in *;
    try reflexivity; try lia.
  - now rewrite substring_all.
  - rewrite <- IH by lia. reflexivity.
Qed.

Lemma endswith_spec (s f : string) :
  endswith s f = true -> exists a, s = a ++ f.
Proof.
  unfold endswith. intros H. apply andb_true_iff in H as [Hle He].
  apply Nat.leb_le in Hle. apply String.eqb_eq in He.
  exists (substring 0 (String.length s - String.length f) s).
  pose proof (substring_split s (String.length s - String.length f)
                ltac:(lia)) as Hs.
  replace (String.length s - (String.length s - String.length f))%nat
    with (String.length f) in Hs by lia.
  rewrite He in Hs. exact Hs.
Qed.

Lemma contains_at (c : ascii) (u q : string) :
  contains c (u ++ String c q) = true.
Proof.
  rewrite contains_append. simpl. rewrite Ascii.eqb_refl.
  now rewrite orb_true_r.
Qed.

Lemma suffix_inside (u : string) (c : ascii) (q a f : string) :
  u ++ String c q = a ++ f -> contains c f = false ->
  exists q2, q = q2 ++ f /\ a = u ++ String c q2.
Proof.
  revert a. induction u as [|x u IH]; intros a E Hf; simpl in *.
  - destruct a as [|y a]; simpl in E.
    + subst f. simpl in Hf. now rewrite Ascii.eqb_refl in Hf.
    + injection E as <- ->. now exists a.
  - destruct a as [|y a]; simpl in E.
    + subst f. simpl in Hf. rewrite contains_at in Hf.
      now rewrite orb_true_r in Hf.
    + injection E as <- E. destruct (IH a E Hf) as (q2 & -> & ->).
      now exists q2.
Qed.

Lemma holds_object_strip (b s : string) :
  holds_object b s -> holds_object b (strip s).
Proof.
  intros (p & q & -> & Hp & Hq). unfold strip.
  change (p ++ "{" ++ b ++ "}" ++ q) with (p ++ String "{" (b ++ String "}" q)).
  destruct (lstrip_before_brace p (b ++ String "}" q) Hp) as (p' & -> & Hp').
  replace (p' ++ String "{" (b ++ String "}" q))
    with ((p' ++ String "{" b) ++ String "}" q)
    by (rewrite append_assoc; reflexivity).
  destruct (rstrip_after_brace (p' ++ String "{" b) q Hq) as (q' & -> & Hq').
  exists p', q'. repeat split; auto.
  rewrite append_assoc. reflexivity.
Qed.

Lemma holds_object_drop_fence (b s : string) :
  holds_object b s -> startswith s "```json" = true ->
  holds_object b (py_slice s (Some 7) None).
Proof.
  intros (p & q & -> & Hp & Hq) H. unfold startswith in H.
  change (p ++ "{" ++ b ++ "}" ++ q)
    with (p ++ String "{" (b ++ String "}" q)) in *.
  destruct (prefix_inside _ _ _ _ H eq_refl) as [p2 ->].
  rewrite append_assoc.
  change 7 with (Z.of_nat (String.length "```json")).
  rewrite py_slice_drop.
  exists p2, q. repeat split; auto.
Qed.

Lemma holds_object_drop_tail (b s : string) :
  holds_object b s -> endswith s "```" = true ->
  holds_object b (py_slice s None (Some (-3))).
Proof.
  intros (p & q & -> & Hp & Hq) H.
  destruct (endswith_spec _ _ H) as [a Ea].
  change (p ++ "{" ++ b ++ "}" ++ q)
    with (p ++ String "{" (b ++ String "}" q)) in *.
  replace (p ++ String "{" (b ++ String "}" q))
    with ((p ++ String "{" b) ++ String "}" q) in *
    by (rewrite append_assoc; reflexivity).
  destruct (suffix_inside _ _ _ _ _ Ea eq_refl) as (q2 & -> & ->).
  replace ((p ++ String "{" b) ++ String "}" (q2 ++ "```"))
    with (((p ++ String "{" b) ++ String "}" q2) ++ "```")
    by (rewrite !append_assoc; reflexivity).
  change (-3) with (- Z.of_nat (String.length "```")).
  rewrite py_slice_drop_end by discriminate.
  exists p, q2. repeat split; auto.
  - rewrite append_assoc. reflexivity.
  - rewrite contains_append in Hq. now apply orb_false_iff in Hq.
Qed.

Lemma holds_object_clean_response (b s : string) :
  holds_object b s -> holds_object b (clean_response s).
Proof.
  intros H. unfold clean_response. apply holds_object_strip in H.
  destruct (startswith (strip s) "```json") eqn:E1.
  - apply holds_object_drop_fence in H; [| exact E1].
    destruct (endswith (py_slice (strip s) (Some 7) None) "```") eqn:E2;
      [now apply holds_object_drop_tail | exact H].
  - destruct (endswith (strip s) "```") eqn:E2;
      [now apply holds_object_drop_tail | exact H].
Qed.

(** X5.  Whatever surrounds a JSON object in the generated text (blank
    lines, a code fence with or without its language tag, commentary),
    as long as no opening brace comes before the object and no closing
    brace after it, the clean-up and the isolation hand exactly the
    object's text to [json.loads], and [extract] ends as [json.loads]
    does on that text. *)
Theorem extract_reads_the_object
    (json_loads : string -> loads_result) (before b after : string) :
  contains "{" before = false ->
  contains "}" after = false ->
  isolate_payload (clean_response (before ++ "{" ++ b ++ "}" ++ after))
  = "{" ++ b ++ "}"
  /\ extract json_loads (before ++ "{" ++ b ++ "}" ++ after)
     = match json_loads ("{" ++ b ++ "}") with
       | Loaded persona_data => Parsed persona_data
       | JSONDecodeError => MalformedPayload (substring 0 500 ("{" ++ b ++ "}"))
       | OtherException => UnexpectedError
       end.
Proof.
  intros Hb Ha.
  assert (E : isolate_payload
                (clean_response (before ++ "{" ++ b ++ "}" ++ after))
              = "{" ++ b ++ "}").
  { destruct (holds_object_clean_response b
                (before ++ "{" ++ b ++ "}" ++ after))
      as (p & q & -> & Hp & Hq).
    - exists before, after. auto.
    - now apply isolate_payload_between. }
  split; [exact E |].
  unfold extract, parse_persona_data_from_json. rewrite E.
  destruct (json_loads ("{" ++ b ++ "}")); try reflexivity.
  now rewrite py_slice_head.
Qed.

Lemma extract_reads_the_object_witness :
  isolate_payload
    (clean_response
       ("Here is the persona:" ++ newline ++ "```" ++ newline
        ++ "{" ++ json_text "'persona_name': 'Alex S.'" ++ "}"
        ++ newline ++ "```" ++ newline))
  = "{" ++ json_text "'persona_name': 'Alex S.'" ++ "}".
Proof.
  apply (extract_reads_the_object json_loads_model
           ("Here is the persona:" ++ newline ++ "```" ++ newline)
           (json_text "'persona_name': 'Alex S.'")
           (newline ++ "```" ++ newline)); reflexivity.
Defined.

(** *** The failure excerpt and the test in [main] *)

Lemma substring_head_length (n : nat) (s : string) :
  (String.length (substring 0 n s) <= n)%nat.
Proof.
  revert n. induction s as [|c s IH]; intros [|n]; simpl; try lia.
  specialize (IH n). lia.
Qed.

Lemma substring_head_begins (n : nat) (s : string) :
  begins_with (substring 0 n s) s.
Proof.
  revert n. induction s as [|c s IH]; intros [|n]; simpl.
  - now exists EmptyString.
  - now exists EmptyString.
  - now exists (String c s).
  - destruct (IH n) as [x Hx]. exists x. simpl. now rewrite <- Hx.
Qed.

Lemma substring_head_short (n : nat) (s : string) :
  (String.length s <= n)%nat -> substring 0 n s = s.
Proof.
  revert n. induction s as [|c s IH]; intros [|n] H; simpl in *;
    try reflexivity; try lia.
  rewrite IH by lia. reflexivity.
Qed.

(** X6.  The excerpt carried by [MalformedPayload] is the beginning of
    the isolated payload, never longer than 500 characters, and the whole
    payload when that has at most 500 characters. *)
Theorem malformed_excerpt_is_bounded
    (json_loads : string -> loads_result) (text excerpt : string) :
  parse_persona_data_from_json json_loads text = MalformedPayload excerpt ->
  (String.length excerpt <= 500)%nat
  /\ begins_with excerpt (isolate_payload text)
  /\ ((String.length (isolate_payload text) <= 500)%nat ->
      excerpt = isolate_payload text).
Proof.
  unfold parse_persona_data_from_json.
  destruct (json_loads (isolate_payload text)); try discriminate.
  rewrite py_slice_head. intros H. injection H as <-.
  split; [apply substring_head_length | split].
  - apply substring_head_begins.
  - apply substring_head_short.
Qed.

Lemma malformed_excerpt_is_bounded_witness :
  (String.length "Sorry {" <= 500)%nat.
Proof.
  apply (malformed_excerpt_is_bounded json_loads_model "Sorry {" "Sorry {").
  reflexivity.
Defined.

(** X7.  [main] calls the renderer exactly when the raw text is not
    empty and [json.loads] gives a truthy value on its isolated payload,
    and then it renders that value; a text that parses to a falsy value
    (the empty object, the empty list, [null], zero) is reported as a
    parsing failure like a text that does not parse. *)
Theorem main_renders_iff
    (text_width : font -> string -> Z) (py_str : pyval -> string)
    (json_loads : string -> loads_result) (text : string) :
  ((exists rendering,
       main_tail text_width py_str json_loads (Some text)
       = RenderCalled rendering)
   <-> text <> EmptyString
       /\ exists v, json_loads (isolate_payload text) = Loaded v
                    /\ truthy v = true)
  /\ (forall v,
        text <> EmptyString ->
        json_loads (isolate_payload text) = Loaded v ->
        main_tail text_width py_str json_loads (Some text)
        = if truthy v
          then RenderCalled (generate_persona_image text_width py_str v)
          else ParsingFailureReported).
Proof.
  unfold main_tail, run_pipeline, parse_persona_data_from_json.
  split.
  - split.
    + intros [rendering H].
      destruct text as [|c text]; [discriminate |]. split; [discriminate |].
      simpl truthy in H. cbv iota in H.
      destruct (json_loads (isolate_payload (String c text))) as [v | |];
        simpl in H; try discriminate.
      exists v. split; [reflexivity |].
      destruct (truthy v); [reflexivity | discriminate].
    + intros [Hne (v & E & T)].
      destruct text as [|c text]; [congruence |].
      simpl truthy. cbv iota. rewrite E. simpl. rewrite T. eauto.
  - intros v Hne E.
    destruct text as [|c text]; [congruence |].
    simpl truthy. cbv iota. rewrite E. reflexivity.
Qed.

Lemma main_renders_iff_witness :
  main_tail fixed_pitch str_of_str json_loads_model (Some "[]")
  = ParsingFailureReported.
Proof.
  apply (proj2 (main_renders_iff fixed_pitch str_of_str json_loads_model
                  "[]") (PList [])); [discriminate | reflexivity].
Defined.

(** ** More on the layout *)

(** X8.  On an object whose present values have the shapes the reads
    rely on (a non-empty string under each scalar key, a falsy value or a
    list of objects under each list key, strings under [item] and
    [citation_url]), the render pass raises nothing: it ends at its early
    return or at the saving of the image. *)
Theorem render_raises_nothing_on_shaped
    (text_width : font -> string -> Z) (py_str : pyval -> string) (d : dict) :
  shaped d = true ->
  exists result,
    snd (generate_persona_image text_width py_str (PDict d)) = inr result.
Proof. apply generate_persona_image_succeeds. Qed.

Lemma render_raises_nothing_on_shaped_witness :
  shaped [("persona_name", PStr "Alex S.");
          ("frustrations",
           PList [PDict [("item", PStr "Dislikes noise");
                         ("citation_url", PStr "https://reddit.com/r/x/abc")]])]
  = true
  /\ exists result,
      snd (generate_persona_image fixed_pitch str_of_str
             (PDict [("persona_name", PStr "Alex S.");
                     ("frustrations",
                      PList [PDict [("item", PStr "Dislikes noise");
                                    ("citation_url",
                                     PStr "https://reddit.com/r/x/abc")]])]))
      = inr result.
Proof.
  split; [reflexivity |].
  apply render_raises_nothing_on_shaped. reflexivity.
Defined.

(** *** Texts are drawn apart *)

Lemma spaced_app (g : Z) (l1 l2 : list Z) :
  spaced g l1 -> spaced g l2 ->
  (forall a b, In a l1 -> In b l2 -> a + g <= b) ->
  spaced g (l1 ++ l2).
Proof.
  induction l1 as [|a l1 IH]; simpl; intros H1 H2 H; [assumption |].
  destruct H1 as [Ha H1]. split.
  - apply Forall_app; split; [assumption |].
    apply Forall_forall. intros b Hb. apply H; auto.
  - apply IH; auto.
Qed.

Lemma paces_ret {A : Type} (cur : A -> Z) (y : Z) (a : A) :
  y <= cur a -> paces cur y (ret a).
Proof. intros H. unfold paces; simpl. repeat split; auto. Qed.

Lemma paces_lift {A : Type} (y : Z) (r : exn + A) :
  paces (fun _ => y) y (lift r).
Proof.
  unfold paces; simpl. repeat split; auto. destruct r; auto.
  split; [lia | constructor].
Qed.

Lemma paces_draw_text (y0 x y : Z) (text : pyval) (c : color) (f : font) :
  y0 <= y -> paces (fun _ => y + 18) y0 (draw_text x y text c f).
Proof.
  intros H. unfold paces, line_gap.
  destruct text; simpl; try (repeat split; auto; fail).
  repeat split; try lia; repeat constructor; lia.
Qed.

Lemma paces_bind {A B : Type} (curA : A -> Z) (curB : B -> Z) (y : Z)
    (m : M A) (k : A -> M B) :
  paces curA y m ->
  (forall a, snd m = inr a -> paces curB (curA a) (k a)) ->
  paces curB y (bind m k).
Proof.
  destruct m as [ops [e | a]]; unfold paces; simpl;
    intros (Hn & Hlo & Hhi) Hk.
  - repeat split; auto.
  - destruct Hhi as [Hya Hhi].
    specialize (Hk a eq_refl). destruct (k a) as [ops' r]; simpl in *.
    destruct Hk as (Hn' & Hlo' & Hhi').
    unfold cursor_trace in *. rewrite map_app.
    rewrite Forall_forall in Hlo, Hhi, Hlo'.
    split; [| split].
    + apply spaced_app; auto.
      intros u v Hu Hv. specialize (Hhi u Hu). specialize (Hlo' v Hv). lia.
    + apply Forall_app. split; apply Forall_forall; intros v Hv.
      * now apply Hlo.
      * specialize (Hlo' v Hv). lia.
    + destruct r as [e | b]; [exact I |].
      destruct Hhi' as [Hab Hhi']. split; [lia |].
      apply Forall_app. split; [| assumption].
      apply Forall_forall. intros v Hv. specialize (Hhi v Hv). lia.
Qed.

(** One step of a proof that a computation keeps its texts apart. *)
Ltac pace_step :=
  lazymatch goal with
  | |- paces _ _ (ret _) => apply paces_ret; cbv beta; unfold line_gap; simpl; lia
  | |- paces _ _ (lift _) => apply paces_lift
  | |- paces _ _ (draw_text _ _ _ _ _) => apply paces_draw_text; lia
  | |- paces _ _ (bind ?m _) =>
      lazymatch type of m with
      | M Z => eapply (paces_bind (fun v : Z => v))
      | _ => eapply paces_bind
      end; [ | intros ? _; cbv beta; unfold line_gap ]
  | |- paces _ _ (if ?b then _ else _) => destruct b
  end.

Lemma draw_lines_paces (lines : list string) (x y0 y : Z) (first : bool)
    (body_font : font) (text_color : color) :
  y0 <= y ->
  paces (fun v => v) y0 (draw_lines x y first lines body_font text_color).
Proof.
  revert y0 y first. induction lines as [|line lines IH];
    intros y0 y first H; cbn [draw_lines].
  - pace_step.
  - repeat pace_step. apply IH. lia.
Qed.

Lemma draw_info_paces (info_items : list string) (x_margin y0 y : Z) :
  y0 <= y -> paces (fun v => v) y0 (draw_info x_margin y info_items).
Proof.
  revert y0 y. induction info_items as [|i info_items IH];
    intros y0 y H; cbn [draw_info].
  - pace_step.
  - repeat pace_step. apply IH. lia.
Qed.

Section Spacing.

Variable text_width : font -> string -> Z.
Variable py_str : pyval -> string.

Lemma draw_item_paces (x y0 y : Z) (item_data : pyval)
    (body_font : font) (text_color : color) (max_width : Z) :
  y0 <= y ->
  paces (fun v => v) y0
    (draw_item text_width x y item_data body_font text_color max_width).
Proof.
  intros H. unfold draw_item.
  repeat first [ pace_step | apply draw_lines_paces; lia ].
Qed.

Lemma draw_items_paces (elements : list pyval) (x y0 y : Z)
    (body_font : font) (text_color : color) (max_width : Z) :
  y0 <= y ->
  paces (fun v => v) y0
    (draw_items text_width x y elements body_font text_color max_width).
Proof.
  revert y0 y. induction elements as [|e elements IH];
    intros y0 y H; cbn [draw_items].
  - pace_step.
  - pace_step; [apply draw_item_paces; lia | apply IH; lia].
Qed.

Lemma draw_bullet_section_paces (x y0 y : Z) (title : string)
    (items : pyval) (header_font body_font : font) (text_color : color)
    (max_width : Z) :
  y0 <= y ->
  paces (fun v => v) y0
    (draw_bullet_section text_width x y title items header_font body_font
       text_color max_width).
Proof.
  intros H. unfold draw_bullet_section.
  repeat first [ pace_step | apply draw_items_paces; lia ].
Qed.

(** X9.  In a render pass over any value, every text is drawn at least
    18 pixels below the text drawn before it: the cursor values drawn at
    strictly increase, and no two texts share a height. *)
Theorem texts_are_drawn_apart (persona_data : pyval) :
  spaced 18
    (cursor_trace
       (fst (generate_persona_image text_width py_str persona_data))).
Proof.
  assert (H : paces final_cursor 40
                (generate_persona_image text_width py_str persona_data)).
  { unfold generate_persona_image.
    destruct (negb (truthy persona_data)).
    - apply paces_ret. simpl. lia.
    - cbv zeta.
      repeat first [ pace_step
                   | apply draw_info_paces; lia
                   | apply draw_bullet_section_paces; lia ]. }
  exact (proj1 H).
Qed.

End Spacing.

(** *** The pass reads the object only through its twelve fields *)

Lemma normalize_reads (d : dict) (r : PersonaRecord) :
  normalize (PDict d) = inr r ->
  (dict_get d "persona_name" (PStr "N/A") = persona_name r
   /\ dict_get d "estimated_age" (PStr "N/A") = estimated_age r
   /\ dict_get d "occupation" (PStr "N/A") = occupation r
   /\ dict_get d "status" (PStr "N/A") = status r
   /\ dict_get d "likely_location" (PStr "N/A") = likely_location r
   /\ dict_get d "archetype" (PStr "N/A") = archetype r
   /\ dict_get d "mbti_personality" (PStr "N/A") = mbti_personality r)
  /\ read_section (dict_get d "frustrations" (PList [])) = inr (frustrations r)
  /\ read_section (dict_get d "likings" (PList [])) = inr (likings r)
  /\ read_section (dict_get d "motivations" (PList [])) = inr (motivations r)
  /\ read_section (dict_get d "behavior_habits" (PList []))
     = inr (behavior_habits r)
  /\ read_section (dict_get d "goals_needs" (PList [])) = inr (goals_needs r).
Proof.
  unfold normalize, read_scalar, read_list, py_get. cbn [and_then].
  destruct (read_section (dict_get d "frustrations" (PList []))) as [|o1];
    [discriminate |].
  destruct (read_section (dict_get d "likings" (PList []))) as [|o2];
    [discriminate |].
  destruct (read_section (dict_get d "motivations" (PList []))) as [|o3];
    [discriminate |].
  destruct (read_section (dict_get d "behavior_habits" (PList []))) as [|o4];
    [discriminate |].
  destruct (read_section (dict_get d "goals_needs" (PList []))) as [|o5];
    [discriminate |].
  cbn [and_then]. intros H. injection H as <-. project_fields.
  repeat split; reflexivity.
Qed.

Lemma read_observations_cons (e : pyval) (l : list pyval)
    (os : list Observation) :
  read_observations (e :: l) = inr os ->
  exists o os', os = o :: os' /\ read_observation e = inr o
                /\ read_observations l = inr os'.
Proof.
  simpl. destruct (read_observation e) as [|o]; [discriminate |].
  destruct (read_observations l) as [|os']; [discriminate |].
  simpl. intros H. injection H as <-. eauto.
Qed.

Lemma truthy_iter_nonempty (v : pyval) (l : list pyval) :
  truthy v = true -> py_iter v = inr l -> l <> [].
Proof.
  destruct v as [| | |s|l'|d]; simpl; try discriminate;
    intros T H; injection H as <-.
  - destruct s; [discriminate | discriminate].
  - destruct l'; [discriminate | discriminate].
  - destruct d; [discriminate | discriminate].
Qed.

Lemma bind_ext {A B : Type} (m : M A) (k1 k2 : A -> M B) :
  (forall a, k1 a = k2 a) -> bind m k1 = bind m k2.
Proof.
  intros H. destruct m as [ops [e | a]]; simpl; [reflexivity |].
  now rewrite H.
Qed.

Lemma bind_lift_inr {A B : Type} (a : A) (k : A -> M B) :
  bind (lift (inr a)) k = k a.
Proof. unfold bind, lift. now destruct (k a). Qed.

Section Reads.

Variable text_width : font -> string -> Z.
Variable py_str : pyval -> string.

Lemma draw_item_reads (x y : Z) (e1 e2 : pyval) (body_font : font)
    (text_color : color) (max_width : Z) :
  read_observation e1 = read_observation e2 ->
  draw_item text_width x y e1 body_font text_color max_width
  = draw_item text_width x y e2 body_font text_color max_width.
Proof. intros H. unfold draw_item. now rewrite H. Qed.

Lemma draw_items_reads (os : list Observation) (l1 l2 : list pyval)
    (x y : Z) (body_font : font) (text_color : color) (max_width : Z) :
  read_observations l1 = inr os -> read_observations l2 = inr os ->
  draw_items text_width x y l1 body_font text_color max_width
  = draw_items text_width x y l2 body_font text_color max_width.
Proof.
  revert l1 l2 y. induction os as [|o os IH]; intros l1 l2 y H1 H2.
  - destruct l1 as [|e1 l1];
      [| apply read_observations_cons in H1 as (? & ? & ? & _); discriminate].
    destruct l2 as [|e2 l2];
      [| apply read_observations_cons in H2 as (? & ? & ? & _); discriminate].
    reflexivity.
  - destruct l1 as [|e1 l1]; [discriminate |].
    destruct l2 as [|e2 l2]; [discriminate |].
    apply read_observations_cons in H1 as (o1 & os1 & E1 & R1 & L1).
    apply read_observations_cons in H2 as (o2 & os2 & E2 & R2 & L2).
    injection E1 as <- <-. injection E2 as <- <-.
    cbn [draw_items].
    rewrite (draw_item_reads x y e1 e2) by congruence.
    apply bind_ext. intros y'. now apply IH.
Qed.

Lemma draw_bullet_section_reads (os : list Observation) (i1 i2 : pyval)
    (x y : Z) (title : string) (header_font body_font : font)
    (text_color : color) (max_width : Z) :
  read_section i1 = inr os -> read_section i2 = inr os ->
  draw_bullet_section text_width x y title i1 header_font body_font
    text_color max_width
  = draw_bullet_section text_width x y title i2 header_font body_font
      text_color max_width.
Proof.
  unfold read_section, draw_bullet_section. intros H1 H2.
  apply bind_ext. intros _. f_equal.
  destruct (truthy i1) eqn:T1, (truthy i2) eqn:T2; cbn [negb] in *.
  - destruct (py_iter i1) as [|l1]; [discriminate |].
    destruct (py_iter i2) as [|l2]; [discriminate |].
    cbn [and_then] in *. unfold lift, bind.
    now rewrite (draw_items_reads os l1 l2).
  - injection H2 as <-. destruct (py_iter i1) as [|l1] eqn:E; [discriminate |].
    cbn [and_then] in H1. destruct l1 as [|e l1].
    + now apply truthy_iter_nonempty in E.
    + apply read_observations_cons in H1 as (? & ? & ? & _). discriminate.
  - injection H1 as <-. destruct (py_iter i2) as [|l2] eqn:E; [discriminate |].
    cbn [and_then] in H2. destruct l2 as [|e l2].
    + now apply truthy_iter_nonempty in E.
    + apply read_observations_cons in H2 as (? & ? & ? & _). discriminate.
  - reflexivity.
Qed.

(** X10.  The render pass depends on the object only through the twelve
    defaulted reads: two non-empty objects that are read to the same
    record give the same canvas and the same result, whatever other keys
    they hold and however a falsy list is written. *)
Theorem render_depends_on_record_only (d1 d2 : dict) (r : PersonaRecord) :
  d1 <> [] -> d2 <> [] ->
  normalize (PDict d1) = inr r -> normalize (PDict d2) = inr r ->
  generate_persona_image text_width py_str (PDict d1)
  = generate_persona_image text_width py_str (PDict d2).
Proof.
  intros N1 N2 H1 H2.
  apply normalize_reads in H1
    as ((A1 & A2 & A3 & A4 & A5 & A6 & A7) & S1 & S2 & S3 & S4 & S5).
  apply normalize_reads in H2
    as ((B1 & B2 & B3 & B4 & B5 & B6 & B7) & T1 & T2 & T3 & T4 & T5).
  unfold generate_persona_image.
  destruct d1 as [|kv1 d1]; [congruence |].
  destruct d2 as [|kv2 d2]; [congruence |].
  cbn [truthy negb]. cbv zeta.
  cbn [format_info info_fields py_get].
  rewrite A1, A2, A3, A4, A5, A6, A7, B1, B2, B3, B4, B5, B6, B7.
  repeat (apply bind_ext; intros ?).
  rewrite !bind_lift_inr.
  rewrite (draw_bullet_section_reads _ _ _ _ _ _ _ _ _ _ S1 T1).
  apply bind_ext; intros ?. rewrite !bind_lift_inr.
  rewrite (draw_bullet_section_reads _ _ _ _ _ _ _ _ _ _ S2 T2).
  apply bind_ext; intros ?. rewrite !bind_lift_inr.
  rewrite (draw_bullet_section_reads _ _ _ _ _ _ _ _ _ _ S3 T3).
  apply bind_ext; intros ?. rewrite !bind_lift_inr.
  rewrite (draw_bullet_section_reads _ _ _ _ _ _ _ _ _ _ S4 T4).
  apply bind_ext; intros ?. rewrite !bind_lift_inr.
  rewrite (draw_bullet_section_reads _ _ _ _ _ _ _ _ _ _ S5 T5).
  reflexivity.
Qed.

End Reads.

Lemma render_depends_on_record_only_witness :
  generate_persona_image fixed_pitch str_of_str
    (PDict [("persona_name", PStr "Alex S."); ("likings", PNone);
            ("karma", PInt 12)])
  = generate_persona_image fixed_pitch str_of_str
      (PDict [("likings", PList []); ("persona_name", PStr "Alex S.")]).
Proof.
  apply (render_depends_on_record_only fixed_pitch str_of_str _ _
           {| persona_name := PStr "Alex S."; estimated_age := PStr "N/A";
              occupation := PStr "N/A"; status := PStr "N/A";
              likely_location := PStr "N/A"; archetype := PStr "N/A";
              mbti_personality := PStr "N/A"; frustrations := [];
              likings := []; motivations := []; behavior_habits := [];
              goals_needs := [] |});
    (discriminate || reflexivity).
Defined.

(** *** The height of the card *)

Lemma snd_bind {A B : Type} (m : M A) (k : A -> M B) (a : A) :
  snd m = inr a -> snd (bind m k) = snd (k a).
Proof.
  destruct m as [ops r]; simpl. intros ->. now destruct (k a).
Qed.

Lemma fst_bind {A B : Type} (m : M A) (k : A -> M B) (a : A) :
  snd m = inr a -> fst (bind m k) = (fst m ++ fst (k a))%list.
Proof.
  destruct m as [ops r]; simpl. intros ->. now destruct (k a).
Qed.

Lemma draw_lines_returns (lines : list string) (x y : Z) (first : bool)
    (body_font : font) (text_color : color) :
  snd (draw_lines x y first lines body_font text_color)
  = inr (y + 20 * Z.of_nat (List.length lines)).
Proof.
  revert y first. induction lines as [|line lines IH]; intros y first;
    cbn [draw_lines].
  - simpl. f_equal. lia.
  - rewrite (snd_bind _ _ tt) by reflexivity. rewrite IH.
    f_equal. cbn [List.length]. lia.
Qed.

Lemma draw_info_returns (info_items : list string) (x_margin y : Z) :
  snd (draw_info x_margin y info_items)
  = inr (y + 25 * Z.of_nat (List.length info_items)).
Proof.
  revert y. induction info_items as [|i info_items IH]; intros y;
    cbn [draw_info].
  - simpl. f_equal. lia.
  - rewrite (snd_bind _ _ tt) by reflexivity. rewrite IH.
    f_equal. cbn [List.length]. lia.
Qed.

(** The wrap commits at most one line a word. *)
Lemma wrap_words_count (measure : string -> Z) (max_width : Z)
    (words wrapped : list string) (cur : string) :
  (List.length (wrap_words measure max_width words wrapped cur)
   <= List.length wrapped + List.length words + 1)%nat.
Proof.
  revert wrapped cur. induction words as [|w ws IH]; intros wrapped cur;
    simpl.
  - rewrite length_app. simpl. lia.
  - destruct (measure (strip (cur ++ String " " w)) <? max_width - 20).
    + specialize (IH wrapped (strip (cur ++ String " " w))). lia.
    + specialize (IH (wrapped ++ [cur])%list w).
      rewrite length_app in IH. simpl in IH. lia.
Qed.

(** X11.  The wrap never produces more lines than the item has words,
    plus one; and no more lines than words when the first word, as
    measured, fits below the limit. *)
Theorem wrap_line_count_bound
    (measure : string -> Z) (max_width : Z) (item_text : string) :
  (List.length (wrap_text measure max_width item_text)
   <= List.length (split " " item_text) + 1)%nat
  /\ (measure (strip (first_word item_text)) < max_width - 20 ->
      (List.length (wrap_text measure max_width item_text)
       <= List.length (split " " item_text))%nat).
Proof.
  unfold wrap_text, first_word. split.
  - pose proof (wrap_words_count measure max_width (split " " item_text) []
                  EmptyString) as H.
    simpl in H. exact H.
  - destruct (split " " item_text) as [|w0 rest] eqn:Es;
      [now apply split_nonempty in Es |].
    simpl hd. intros H. simpl wrap_words.
    change (EmptyString ++ String " " w0) with (String " " w0).
    rewrite strip_after_space. apply Z.ltb_lt in H. rewrite H.
    pose proof (wrap_words_count measure max_width rest [] (strip w0)) as Hc.
    simpl in *. lia.
Qed.

Lemma wrap_line_count_bound_witness :
  fixed_pitch font_body (strip (first_word "the quick brown fox")) < 100 - 20
  /\ (List.length (wrap_text (fixed_pitch font_body) 100 "the quick brown fox")
      <= List.length (split " " "the quick brown fox"))%nat.
Proof.
  split; [reflexivity |].
  apply (proj2 (wrap_line_count_bound (fixed_pitch font_body) 100
                  "the quick brown fox")). reflexivity.
Defined.

Section Height.

Variable text_width : font -> string -> Z.
Variable py_str : pyval -> string.

(** What [draw_item] does with an element read as an observation of two
    strings. *)
Lemma draw_item_observation (x y : Z) (e : pyval) (o : Observation)
    (item_text citation : string) (body_font : font) (text_color : color)
    (max_width : Z) :
  read_observation e = inr o ->
  item o = PStr item_text -> citation_url o = PStr citation ->
  draw_item text_width x y e body_font text_color max_width
  = (y' <- draw_lines x y true
             (wrap_text (text_width body_font) max_width item_text)
             body_font text_color ;;
     if truthy (PStr citation) then
       draw_text (x + 25) y'
         (PStr ("(Source: " ++ citation_segment citation ++ ")"))
         (100, 100, 100) font_small ;;;
       ret (y' + 18)
     else ret y').
Proof.
  intros Hr Hi Hc. unfold draw_item. rewrite Hr, bind_lift_inr, Hi, Hc.
  cbn [py_split]. rewrite bind_lift_inr. apply bind_ext. intros y'.
  destruct (truthy (PStr citation)); [| reflexivity].
  now rewrite bind_lift_inr.
Qed.

(** The canvas and the cursor of [draw_item] on such an element. *)
Lemma draw_item_canvas (x y : Z) (e : pyval) (o : Observation)
    (item_text citation : string) (body_font : font) (text_color : color)
    (max_width : Z) :
  read_observation e = inr o ->
  item o = PStr item_text -> citation_url o = PStr citation ->
  let lines := wrap_text (text_width body_font) max_width item_text in
  let below := y + 20 * Z.of_nat (List.length lines) in
  fst (draw_item text_width x y e body_font text_color max_width)
  = (fst (draw_lines x y true lines body_font text_color)
     ++ (if String.eqb citation EmptyString then []
         else [Text (x + 25) below
                 ("(Source: " ++ citation_segment citation ++ ")")
                 (100, 100, 100) font_small]))%list
  /\ snd (draw_item text_width x y e body_font text_color max_width)
     = inr (y + observation_height (text_width body_font) max_width o).
Proof.
  intros Hr Hi Hc lines below.
  rewrite (draw_item_observation x y e o item_text citation) by assumption.
  fold lines.
  pose proof (draw_lines_returns lines x y true body_font text_color) as Hl.
  fold below in Hl.
  rewrite (fst_bind _ _ _ Hl), (snd_bind _ _ _ Hl).
  unfold observation_height. rewrite Hi, Hc. fold lines. cbn [truthy].
  destruct (String.eqb citation EmptyString); cbn [negb];
    unfold ret, bind, draw_text; cbn [fst snd app];
    (split; [reflexivity | f_equal; unfold below; lia]).
Qed.

(** X12.  For an element read as an observation whose [item] and
    [citation_url] are strings, [draw_item] draws the wrapped lines of the
    item, then, only when the citation is not empty, one line
    [(Source: seg)] with [seg] the citation's last segment, 25 pixels
    right of the section's margin and just below the last wrapped line;
    and it moves the cursor down by 20 pixels a wrapped line and 18 for
    the citation line. *)
Theorem draw_item_lines_then_citation (x y : Z) (e : pyval) (o : Observation)
    (item_text citation : string) (body_font : font) (text_color : color)
    (max_width : Z) :
  read_observation e = inr o ->
  item o = PStr item_text -> citation_url o = PStr citation ->
  let lines := wrap_text (text_width body_font) max_width item_text in
  let below := y + 20 * Z.of_nat (List.length lines) in
  fst (draw_item text_width x y e body_font text_color max_width)
  = (fst (draw_lines x y true lines body_font text_color)
     ++ (if String.eqb citation EmptyString then []
         else [Text (x + 25) below
                 ("(Source: " ++ citation_segment citation ++ ")")
                 (100, 100, 100) font_small]))%list
  /\ snd (draw_item text_width x y e body_font text_color max_width)
     = inr (y + observation_height (text_width body_font) max_width o).
Proof.
  intros Hr Hi Hc. now apply (draw_item_canvas x y e o item_text citation).
Qed.

Lemma well_formed_observation_strings (o : Observation) :
  well_formed_observation o = true ->
  exists item_text citation,
    item o = PStr item_text /\ citation_url o = PStr citation.
Proof.
  unfold well_formed_observation. intros H.
  apply andb_true_iff in H as [Hi Hc].
  destruct (item o); try discriminate.
  destruct (citation_url o); try discriminate. eauto.
Qed.

Lemma draw_items_returns (os : list Observation) (elements : list pyval)
    (x y : Z) (body_font : font) (text_color : color) (max_width : Z) :
  read_observations elements = inr os ->
  forallb well_formed_observation os = true ->
  snd (draw_items text_width x y elements body_font text_color max_width)
  = inr (y + observations_height (text_width body_font) max_width os).
Proof.
  revert elements y. induction os as [|o os IH]; intros elements y Hr Hw.
  - destruct elements as [|e l];
      [| apply read_observations_cons in Hr as (? & ? & ? & _); discriminate].
    simpl. f_equal. lia.
  - destruct elements as [|e l]; [discriminate |].
    apply read_observations_cons in Hr as (o' & os' & E & Ro & Rl).
    injection E as <- <-.
    simpl in Hw. apply andb_true_iff in Hw as [Ho Hos].
    destruct (well_formed_observation_strings o Ho) as (s & c & Hi & Hc).
    cbn [draw_items].
    destruct (draw_item_canvas x y e o s c body_font text_color
                max_width Ro Hi Hc) as [_ Hd].
    rewrite (snd_bind _ _ _ Hd). rewrite (IH l _ Rl Hos).
    f_equal. cbn [observations_height]. lia.
Qed.

Lemma draw_bullet_section_returns (os : list Observation) (items : pyval)
    (x y : Z) (title : string) (header_font body_font : font)
    (text_color : color) (max_width : Z) :
  read_section items = inr os ->
  forallb well_formed_observation os = true ->
  snd (draw_bullet_section text_width x y title items header_font body_font
         text_color max_width)
  = inr (y + section_height (text_width body_font) max_width os).
Proof.
  unfold read_section, draw_bullet_section. intros Hr Hw.
  rewrite (snd_bind _ _ tt) by reflexivity.
  destruct (truthy items) eqn:T; cbn [negb] in *.
  - destruct (py_iter items) as [|elements] eqn:E; [discriminate |].
    cbn [and_then] in Hr. rewrite bind_lift_inr.
    rewrite (snd_bind _ _ _ (draw_items_returns os elements x (y + 25)
                               body_font text_color max_width Hr Hw)).
    simpl. f_equal. unfold section_height.
    destruct os as [|o os]; [| lia].
    destruct elements as [|e l]; [now apply truthy_iter_nonempty in E |].
    apply read_observations_cons in Hr as (? & ? & ? & _). discriminate.
  - injection Hr as <-.
    rewrite (snd_bind _ _ (y + 25 + 25)) by reflexivity.
    simpl. f_equal. unfold section_height. lia.
Qed.

Lemma observations_height_nonneg (measure : string -> Z) (max_width : Z)
    (os : list Observation) :
  0 <= observations_height measure max_width os.
Proof.
  induction os as [|o os IH]; simpl; [lia |].
  unfold observation_height.
  destruct (item o); destruct (truthy (citation_url o)); lia.
Qed.

Lemma section_height_floor (measure : string -> Z) (max_width : Z)
    (os : list Observation) :
  forallb well_formed_observation os = true ->
  65 <= section_height measure max_width os.
Proof.
  unfold section_height. destruct os as [|o os]; [lia |]. intros H.
  simpl in H. apply andb_true_iff in H as [Ho _].
  destruct (well_formed_observation_strings o Ho) as (s & c & Hi & _).
  pose proof (observations_height_nonneg measure max_width os).
  cbn [observations_height]. unfold observation_height. rewrite Hi.
  pose proof (wrap_words_length measure max_width (split " " s) []
                EmptyString) as Hl.
  simpl in Hl. unfold wrap_text.
  destruct (truthy (citation_url o)); lia.
Qed.

(** X13.  On a non-empty object read to a well-formed record the render
    pass ends with the cursor at the card's height, 340 for the header
    block and, for each of the five sections, 45 plus either 25 for the
    placeholder or 20 a wrapped line and 18 a citation.  That height is
    at least 665, and nothing compares it with the height of the canvas:
    the pass ends the same way when it is beyond 1200. *)
Theorem render_ends_at_card_height (d : dict) (r : PersonaRecord) :
  d <> [] ->
  normalize (PDict d) = inr r ->
  well_formed r = true ->
  snd (generate_persona_image text_width py_str (PDict d))
  = inr (Saved (card_height text_width r))
  /\ 665 <= card_height text_width r.
Proof.
  intros Hne Hn Hw.
  apply normalize_reads in Hn
    as ((A1 & _) & S1 & S2 & S3 & S4 & S5).
  unfold well_formed in Hw. apply andb_true_iff in Hw as [Hs Hl].
  cbn [forallb scalar_fields list_fields snd] in Hs, Hl.
  apply andb_true_iff in Hs as [Hname _].
  repeat (apply andb_true_iff in Hl as [? Hl]).
  split.
  - unfold generate_persona_image.
    destruct d as [|kv d]; [congruence |].
    cbn [truthy negb]. cbv zeta.
    cbn [format_info info_fields py_get].
    rewrite A1. destruct (persona_name r) as [| | |name| |];
      try discriminate.
    rewrite (snd_bind _ _ tt) by reflexivity. rewrite bind_lift_inr.
    rewrite (snd_bind _ _ tt) by reflexivity.
    rewrite (snd_bind _ _ tt) by reflexivity. rewrite bind_lift_inr.
    rewrite (snd_bind _ _ _ (draw_info_returns _ _ _)). rewrite bind_lift_inr.
    rewrite (snd_bind _ _ _ (draw_bullet_section_returns _ _ _ _ _ _ _ _ _
                               S1 ltac:(eassumption))).
    rewrite bind_lift_inr.
    rewrite (snd_bind _ _ _ (draw_bullet_section_returns _ _ _ _ _ _ _ _ _
                               S2 ltac:(eassumption))).
    rewrite bind_lift_inr.
    rewrite (snd_bind _ _ _ (draw_bullet_section_returns _ _ _ _ _ _ _ _ _
                               S3 ltac:(eassumption))).
    rewrite bind_lift_inr.
    rewrite (snd_bind _ _ _ (draw_bullet_section_returns _ _ _ _ _ _ _ _ _
                               S4 ltac:(eassumption))).
    rewrite bind_lift_inr.
    rewrite (snd_bind _ _ _ (draw_bullet_section_returns _ _ _ _ _ _ _ _ _
                               S5 ltac:(eassumption))).
    unfold ret, card_height. cbn [snd List.length].
    change (width - 2 * 60) with 680. reflexivity.
  - unfold card_height.
    repeat match goal with
           | H : forallb well_formed_observation _ = true |- _ =>
               apply (section_height_floor (text_width font_body) 680) in H
           end.
    lia.
Qed.

End Height.

Lemma draw_item_lines_then_citation_witness :
  snd (draw_item fixed_pitch 60 365
         (PDict [("item", PStr "Dislikes noise");
                 ("citation_url", PStr "https://reddit.com/r/x/abc/")])
         font_body text_color 680)
  = inr 403
  /\ In (Text 85 385 "(Source: )" (100, 100, 100) font_small)
       (fst (draw_item fixed_pitch 60 365
               (PDict [("item", PStr "Dislikes noise");
                       ("citation_url", PStr "https://reddit.com/r/x/abc/")])
               font_body text_color 680)).
Proof.
  destruct (draw_item_lines_then_citation fixed_pitch 60 365
              (PDict [("item", PStr "Dislikes noise");
                      ("citation_url", PStr "https://reddit.com/r/x/abc/")])
              {| item := PStr "Dislikes noise";
                 citation_url := PStr "https://reddit.com/r/x/abc/" |}
              "Dislikes noise" "https://reddit.com/r/x/abc/"
              font_body text_color 680 eq_refl eq_refl eq_refl) as [Hc Hr].
  split.
  - rewrite Hr. reflexivity.
  - rewrite Hc. apply in_or_app. right. left. reflexivity.
Defined.

Lemma render_ends_at_card_height_witness :
  snd (generate_persona_image fixed_pitch str_of_str
         (PDict [("persona_name", PStr "Alex S.")]))
  = inr (Saved 690).
Proof.
  destruct (render_ends_at_card_height fixed_pitch str_of_str
              [("persona_name", PStr "Alex S.")]
              {| persona_name := PStr "Alex S."; estimated_age := PStr "N/A";
                 occupation := PStr "N/A"; status := PStr "N/A";
                 likely_location := PStr "N/A"; archetype := PStr "N/A";
                 mbti_personality := PStr "N/A"; frustrations := [];
                 likings := []; motivations := []; behavior_habits := [];
                 goals_needs := [] |}) as [H _];
    [discriminate | reflexivity | reflexivity |].
  rewrite H. reflexivity.
Defined.

(** *** The columns of the card *)

Lemma column_bind {A B : Type} (m : M A) (k : A -> M B) :
  Forall in_column (fst m) ->
  (forall a, Forall in_column (fst (k a))) ->
  Forall in_column (fst (bind m k)).
Proof.
  destruct m as [ops [e | a]]; simpl; intros H Hk; [assumption |].
  specialize (Hk a). destruct (k a) as [ops' r]; simpl in *.
  apply Forall_app. now split.
Qed.

Lemma column_draw_text (x y : Z) (text : pyval) (c : color) (f : font) :
  (forall s, in_column (Text x y s c f)) ->
  Forall in_column (fst (draw_text x y text c f)).
Proof.
  intros H. destruct text; simpl; try apply Forall_nil.
  apply Forall_cons; [apply H | apply Forall_nil].
Qed.

Lemma column_lift {A : Type} (r : exn + A) : Forall in_column (fst (lift r)).
Proof. constructor. Qed.

Lemma column_ret {A : Type} (a : A) : Forall in_column (fst (ret a)).
Proof. constructor. Qed.

(** Titles, body lines and citations, each in its column. *)
Lemma in_column_title (y : Z) (s : string) (c : color) (f : font) :
  f = font_title \/ f = font_name \/ f = font_header ->
  in_column (Text 60 y s c f).
Proof. intros H. left. simpl. auto. Qed.

Lemma in_column_body (y : Z) (s : string) (c : color) :
  in_column (Text (60 + 10) y s c font_body).
Proof. right; left. simpl. auto. Qed.

Lemma in_column_citation (y : Z) (s : string) :
  in_column (Text (60 + 25) y s (100, 100, 100) font_small).
Proof. right; right. simpl. auto. Qed.

(** One step of a proof that a computation draws in the columns. *)
Ltac column_step :=
  lazymatch goal with
  | |- Forall in_column (fst (ret _)) => apply column_ret
  | |- Forall in_column (fst (lift _)) => apply column_lift
  | |- Forall in_column (fst (draw_text _ _ _ _ _)) =>
      apply column_draw_text; intros ?;
      first [ apply in_column_body | apply in_column_citation
            | apply in_column_title; auto ]
  | |- Forall in_column (fst (bind _ _)) =>
      apply column_bind; [ | intros ? ]
  | |- Forall in_column (fst (if ?b then _ else _)) => destruct b
  end.

Lemma draw_lines_columns (lines : list string) (y : Z) (first : bool)
    (text_color : color) :
  Forall in_column (fst (draw_lines 60 y first lines font_body text_color)).
Proof.
  revert y first. induction lines as [|line lines IH]; intros y first;
    cbn [draw_lines].
  - column_step.
  - repeat column_step. apply IH.
Qed.

Lemma draw_info_columns (info_items : list string) (y : Z) :
  Forall in_column (fst (draw_info 60 y info_items)).
Proof.
  revert y. induction info_items as [|i info_items IH]; intros y;
    cbn [draw_info].
  - column_step.
  - repeat column_step. apply IH.
Qed.

Section Columns.

Variable text_width : font -> string -> Z.
Variable py_str : pyval -> string.

Lemma draw_items_columns (elements : list pyval) (y : Z)
    (text_color : color) (max_width : Z) :
  Forall in_column
    (fst (draw_items text_width 60 y elements font_body text_color max_width)).
Proof.
  revert y. induction elements as [|e elements IH]; intros y;
    cbn [draw_items].
  - column_step.
  - column_step; [| apply IH]. unfold draw_item.
    repeat first [ column_step | apply draw_lines_columns ].
Qed.

Lemma draw_bullet_section_columns (y : Z) (title : string) (items : pyval)
    (text_color : color) (max_width : Z) :
  Forall in_column
    (fst (draw_bullet_section text_width 60 y title items font_header
            font_body text_color max_width)).
Proof.
  unfold draw_bullet_section.
  repeat first [ column_step | apply draw_items_columns ].
Qed.

(** X14.  Everything the render pass draws, on any value, is in one of
    three columns: a title at 60 pixels in a header face, a body line at
    70 in the body face, or a citation at 85 in the small face and
    grey. *)
Theorem render_draws_in_columns (persona_data : pyval) :
  Forall in_column
    (fst (generate_persona_image text_width py_str persona_data)).
Proof.
  unfold generate_persona_image.
  destruct (negb (truthy persona_data)); [apply column_ret |].
  cbv zeta.
  repeat first [ column_step
               | apply draw_info_columns
               | apply draw_bullet_section_columns ].
Qed.

End Columns.

(** ** Scraping and the prompt *)

Lemma occurs_inside (x a b c : string) : occurs x b -> occurs x (a ++ b ++ c).
Proof.
  intros (u & v & ->). exists (a ++ u), (v ++ c).
  now rewrite !append_assoc.
Qed.

Lemma occurs_begins (x acc text : string) :
  occurs x acc -> begins_with acc text -> occurs x text.
Proof.
  intros (u & v & ->) (w & ->). exists u, (v ++ w).
  now rewrite !append_assoc.
Qed.

Lemma occurs_skip (x a s : string) : occurs x s -> occurs x (a ++ s).
Proof.
  intros (u & v & ->). exists (a ++ u), v. now rewrite append_assoc.
Qed.

Lemma occurs_head (x b : string) : occurs x (x ++ b).
Proof. now exists EmptyString, b. Qed.

Lemma occurs_cons (x : string) (c : ascii) (s : string) :
  occurs x s -> occurs x (String c s).
Proof. intros (u & v & ->). now exists (String c u), v. Qed.

(** Walk down a text to the place where a part of it stands. *)
Ltac find_occurrence :=
  repeat first [ apply occurs_head | apply occurs_cons | apply occurs_skip ].

Lemma begins_with_refl (s : string) : begins_with s s.
Proof. exists EmptyString. now rewrite append_empty_r. Qed.

Lemma dict_item_present (d : dict) (key : string) :
  has_key d key = true -> dict_item d key = inr (dict_get d key PNone).
Proof. unfold dict_item. now intros ->. Qed.

Lemma dict_item_inr (d : dict) (key : string) (v : pyval) :
  dict_item d key = inr v -> has_key d key = true /\ v = dict_get d key PNone.
Proof.
  unfold dict_item. destruct (has_key d key); [| discriminate].
  intros H. injection H as <-. auto.
Qed.

Section PromptProperties.

Variable py_str : pyval -> string.
Variable instructions : string.

Lemma post_block_inr (i : Z) (post : dict) (b : string) :
  post_block py_str i post = inr b ->
  post_keys post = true
  /\ occurs (py_str (dict_get post "title" PNone)) b
  /\ occurs (py_str (dict_get post "body" PNone)) b
  /\ occurs (py_str (dict_get post "url" PNone)) b.
Proof.
  unfold post_block, post_keys.
  destruct (dict_item post "title") as [|t] eqn:Et; [discriminate |].
  destruct (dict_item post "body") as [|c] eqn:Ec; [discriminate |].
  destruct (dict_item post "url") as [|u] eqn:Eu; [discriminate |].
  apply dict_item_inr in Et as [Ht ->].
  apply dict_item_inr in Ec as [Hc ->].
  apply dict_item_inr in Eu as [Hu ->].
  cbn [item_then]. intros H. injection H as <-.
  rewrite Ht, Hc, Hu. split; [reflexivity |].
  split; [| split]; find_occurrence.
Qed.

Lemma comment_block_inr (i : Z) (comment : dict) (b : string) :
  comment_block py_str i comment = inr b ->
  comment_keys comment = true
  /\ occurs (py_str (dict_get comment "body" PNone)) b
  /\ occurs (py_str (dict_get comment "url" PNone)) b.
Proof.
  unfold comment_block, comment_keys.
  destruct (dict_item comment "body") as [|c] eqn:Ec; [discriminate |].
  destruct (dict_item comment "url") as [|u] eqn:Eu; [discriminate |].
  apply dict_item_inr in Ec as [Hc ->].
  apply dict_item_inr in Eu as [Hu ->].
  cbn [item_then]. intros H. injection H as <-.
  rewrite Hc, Hu. split; [reflexivity |].
  split; find_occurrence.
Qed.

Lemma post_block_keys (i : Z) (post : dict) :
  post_keys post = true -> exists b, post_block py_str i post = inr b.
Proof.
  unfold post_keys, post_block. intros H.
  apply andb_true_iff in H as [H Hu]. apply andb_true_iff in H as [Ht Hb].
  rewrite !dict_item_present by assumption. cbn [item_then]. eauto.
Qed.

Lemma comment_block_keys (i : Z) (comment : dict) :
  comment_keys comment = true ->
  exists b, comment_block py_str i comment = inr b.
Proof.
  unfold comment_keys, comment_block. intros H.
  apply andb_true_iff in H as [Hb Hu].
  rewrite !dict_item_present by assumption. cbn [item_then]. eauto.
Qed.

(** The loop only appends, and what it appends for an entry is that
    entry's block. *)
Lemma append_blocks_inr (block : Z -> dict -> lookup_error + string)
    (entries : list dict) (i : Z) (text_data text : string) :
  append_blocks block i entries text_data = inr text ->
  begins_with text_data text
  /\ forall entry, In entry entries ->
       exists j b, block j entry = inr b /\ occurs b text.
Proof.
  revert i text_data. induction entries as [|e entries IH];
    intros i text_data H; simpl in H.
  - injection H as <-. split; [apply begins_with_refl | contradiction].
  - destruct (block i e) as [|b] eqn:Eb; [discriminate |].
    cbn [item_then] in H. destruct (IH _ _ H) as [Hbeg Hin].
    split.
    + eapply begins_with_trans; [| exact Hbeg]. now exists b.
    + intros entry [<- | Hentry]; [| now apply Hin].
      exists i, b. split; [exact Eb |].
      eapply occurs_begins; [| exact Hbeg].
      exists text_data, EmptyString. now rewrite append_empty_r.
Qed.

Lemma append_blocks_succeeds (block : Z -> dict -> lookup_error + string)
    (ok : dict -> bool) (entries : list dict) (i : Z) (text_data : string) :
  (forall j e, ok e = true -> exists b, block j e = inr b) ->
  forallb ok entries = true ->
  exists text, append_blocks block i entries text_data = inr text.
Proof.
  intros Hok. revert i text_data.
  induction entries as [|e entries IH]; intros i text_data H; simpl in *.
  - eauto.
  - apply andb_true_iff in H as [He Hes].
    destruct (Hok i e He) as [b ->]. cbn [item_then]. now apply IH.
Qed.

Lemma append_blocks_keys (block : Z -> dict -> lookup_error + string)
    (ok : dict -> bool) (entries : list dict) (i : Z)
    (text_data text : string) :
  (forall j e b, block j e = inr b -> ok e = true) ->
  append_blocks block i entries text_data = inr text ->
  forallb ok entries = true.
Proof.
  intros Hok. revert i text_data.
  induction entries as [|e entries IH]; intros i text_data H; simpl in *.
  - reflexivity.
  - destruct (block i e) as [|b] eqn:Eb; [discriminate |].
    cbn [item_then] in H. rewrite (Hok _ _ _ Eb). simpl. eauto.
Qed.

Lemma build_prompt_with_keys (posts comments : list dict) :
  forallb post_keys posts = true -> forallb comment_keys comments = true ->
  exists text, build_prompt py_str instructions posts comments = inr text.
Proof.
  unfold build_prompt. cbv zeta. intros Hp Hc.
  edestruct (append_blocks_succeeds (post_block py_str) post_keys posts 0)
    as [t1 E1]; [intros; now apply post_block_keys | exact Hp |].
  rewrite E1. cbn [item_then].
  edestruct (append_blocks_succeeds (comment_block py_str) comment_keys
               comments 0 t1)
    as [t2 E2]; [intros; now apply comment_block_keys | exact Hc |].
  rewrite E2. cbn [item_then]. eauto.
Qed.

Lemma scraped_entries_have_keys
    (submissions : listing Submission.t) (user_comments : listing Comment.t) :
  forallb post_keys (fst (scrape_user_data submissions user_comments)) = true
  /\ forallb comment_keys
       (snd (scrape_user_data submissions user_comments)) = true.
Proof.
  unfold scrape_user_data.
  assert (Hp : forall l, forallb post_keys (map post_entry l) = true)
    by (induction l; simpl; auto).
  assert (Hc : forall l, forallb comment_keys (map comment_entry l) = true)
    by (induction l; simpl; auto).
  destruct (raised submissions); simpl; auto.
Qed.

(** X15.  [build_prompt] gives a prompt exactly when every post has the
    keys [title], [body] and [url] and every comment the keys [body] and
    [url]; otherwise a subscript raises [KeyError]. *)
Theorem build_prompt_needs_keys (posts comments : list dict) :
  (exists text, build_prompt py_str instructions posts comments = inr text)
  <-> forallb post_keys posts = true /\ forallb comment_keys comments = true.
Proof.
  unfold build_prompt. cbv zeta. split.
  - intros [text H].
    destruct (append_blocks (post_block py_str) 0 posts _) as [|t1] eqn:E1;
      [discriminate |].
    cbn [item_then] in H.
    destruct (append_blocks (comment_block py_str) 0 comments t1)
      as [|t2] eqn:E2; [discriminate |].
    split.
    + eapply append_blocks_keys; [| exact E1].
      intros j e b Hb. now apply post_block_inr in Hb.
    + eapply append_blocks_keys; [| exact E2].
      intros j e b Hb. now apply comment_block_inr in Hb.
  - intros [Hp Hc]. fold (build_prompt py_str instructions posts comments).
    now apply build_prompt_with_keys.
Qed.

(** X16.  A prompt that [build_prompt] gives begins with the
    instructions, a blank line and the data header; the title, the body
    and the URL of every post and the body and the URL of every comment
    occur in it; and when there is no post and no comment it is exactly
    the instructions, the header and the no-data notice. *)
Theorem build_prompt_holds_the_data (posts comments : list dict)
    (text : string) :
  build_prompt py_str instructions posts comments = inr text ->
  begins_with (instructions ++ newline ++ newline ++ data_header) text
  /\ (forall post, In post posts ->
        occurs (py_str (dict_get post "title" PNone)) text
        /\ occurs (py_str (dict_get post "body" PNone)) text
        /\ occurs (py_str (dict_get post "url" PNone)) text)
  /\ (forall comment, In comment comments ->
        occurs (py_str (dict_get comment "body" PNone)) text
        /\ occurs (py_str (dict_get comment "url" PNone)) text)
  /\ (posts = [] -> comments = [] ->
      text = instructions ++ newline ++ newline ++ data_header
             ++ no_data_notice).
Proof.
  unfold build_prompt. cbv zeta. intros H.
  destruct (append_blocks (post_block py_str) 0 posts _) as [|t1] eqn:E1;
    [discriminate |].
  cbn [item_then] in H.
  destruct (append_blocks (comment_block py_str) 0 comments t1)
    as [|t2] eqn:E2; [discriminate |].
  cbn [item_then] in H. injection H as <-.
  destruct (append_blocks_inr _ _ _ _ _ E1) as [B1 M1].
  destruct (append_blocks_inr _ _ _ _ _ E2) as [B2 M2].
  assert (Hin : forall x, occurs x t2 ->
                  occurs x (instructions ++ newline ++ newline ++ t2)).
  { intros x Hx.
    replace (instructions ++ newline ++ newline ++ t2)
      with ((instructions ++ newline ++ newline) ++ t2 ++ EmptyString)
      by (rewrite !append_assoc, append_empty_r; reflexivity).
    now apply occurs_inside. }
  split; [| split; [| split]].
  - assert (B : begins_with data_header t2).
    { eapply begins_with_trans; [| exact B2].
      eapply begins_with_trans; [| exact B1].
      destruct posts, comments;
        first [ apply begins_with_refl | now exists no_data_notice ]. }
    destruct B as [x ->].
    exists x. now rewrite !append_assoc.
  - intros post Hp. destruct (M1 post Hp) as (j & b & Hb & Ho).
    apply post_block_inr in Hb as (_ & Ht & Hc & Hu).
    repeat split; apply Hin; eapply occurs_begins; try exact B2;
      destruct Ho as (u & v & ->); now apply occurs_inside.
  - intros comment Hc. destruct (M2 comment Hc) as (j & b & Hb & Ho).
    apply comment_block_inr in Hb as (_ & Hy & Hu).
    destruct Ho as (u & v & ->).
    split; apply Hin; now apply occurs_inside.
  - intros -> ->. simpl in E1, E2. injection E1 as <-. injection E2 as <-.
    reflexivity.
Qed.

(** X17.  What [scrape_user_data] returns is always accepted by
    [build_prompt]: every entry it builds has the keys the prompt
    reads. *)
Theorem scraped_data_builds_a_prompt
    (submissions : listing Submission.t) (user_comments : listing Comment.t) :
  exists text,
    build_prompt py_str instructions
      (fst (scrape_user_data submissions user_comments))
      (snd (scrape_user_data submissions user_comments))
    = inr text.
Proof.
  destruct (scraped_entries_have_keys submissions user_comments) as [Hp Hc].
  now apply build_prompt_with_keys.
Qed.

End PromptProperties.

Lemma build_prompt_holds_the_data_witness :
  exists text,
    build_prompt str_of_str "Describe the user."
      [[("title", PStr "Hello"); ("body", PStr "World");
        ("url", PStr "https://reddit.com/r/x/1/")]] []
    = inr text
    /\ occurs "Hello" text.
Proof.
  eexists. split; [reflexivity |].
  refine (proj1 (proj1 (proj2 (build_prompt_holds_the_data str_of_str
                                 "Describe the user."
                                 [[("title", PStr "Hello");
                                   ("body", PStr "World");
                                   ("url", PStr "https://reddit.com/r/x/1/")]]
                                 [] _ eq_refl))
                   [("title", PStr "Hello"); ("body", PStr "World");
                    ("url", PStr "https://reddit.com/r/x/1/")] _)).
  left. reflexivity.
Defined.

(** X18.  [scrape_user_data] returns a post only for a submission with a
    title or a text, and a comment only for one with a body; every such
    submission that the listing yields is returned, with its permalink
    made absolute; and when the listing of submissions raises, the posts
    read so far are returned and no comment at all. *)
Theorem scrape_keeps_what_has_content
    (submissions : listing Submission.t) (user_comments : listing Comment.t) :
  (forall entry,
      In entry (fst (scrape_user_data submissions user_comments)) ->
      truthy (dict_get entry "title" PNone)
      || truthy (dict_get entry "body" PNone) = true)
  /\ (forall entry,
        In entry (snd (scrape_user_data submissions user_comments)) ->
        truthy (dict_get entry "body" PNone) = true)
  /\ (forall post,
        In post (yielded submissions) -> post_has_content post = true ->
        In [ ("title", PStr (Submission.title post));
             ("body", PStr (Submission.selftext post));
             ("url", PStr ("https://reddit.com" ++ Submission.permalink post)) ]
           (fst (scrape_user_data submissions user_comments)))
  /\ (raised submissions = true ->
      snd (scrape_user_data submissions user_comments) = []).
Proof.
  unfold scrape_user_data. split; [| split; [| split]].
  - intros entry H.
    assert (Hin : In entry (map post_entry
                              (filter post_has_content (yielded submissions))))
      by (destruct (raised submissions); exact H).
    apply in_map_iff in Hin as (post & <- & Hf).
    apply filter_In in Hf as [_ Hc]. unfold post_has_content in Hc.
    simpl. now rewrite orb_comm.
  - intros entry H. destruct (raised submissions); [contradiction |].
    simpl in H. apply in_map_iff in H as (c & <- & Hf).
    apply filter_In in Hf as [_ Hc]. exact Hc.
  - intros post Hin Hc.
    assert (In (post_entry post)
              (map post_entry (filter post_has_content (yielded submissions))))
      by (apply in_map, filter_In; auto).
    destruct (raised submissions); assumption.
  - intros ->. reflexivity.
Qed.

Lemma scrape_keeps_what_has_content_witness :
  snd (scrape_user_data
         {| yielded := [ {| Submission.title := "Hello";
                            Submission.selftext := EmptyString;
                            Submission.permalink := "/r/x/comments/1/hello/" |} ];
            raised := true |}
         {| yielded := [ {| Comment.body := "Nice";
                            Comment.permalink := "/r/x/comments/1/hello/c1/" |} ];
            raised := false |})
  = [].
Proof.
  apply (proj2 (proj2 (proj2 (scrape_keeps_what_has_content _ _)))).
  reflexivity.
Defined.

(** ** [main], whole *)

Section MainProperties.

Variable text_width : font -> string -> Z.
Variable py_str : pyval -> string.
Variable instructions : string.
Variable json_loads : string -> loads_result.
Variable redditor : string -> listing Submission.t * listing Comment.t.
Variable generate_content : string -> option string.

Lemma post_block_begins (i : Z) (post : dict) (b : string) :
  post_block py_str i post = inr b -> begins_with "--- " b.
Proof.
  unfold post_block.
  destruct (dict_item post "title"); [discriminate |].
  destruct (dict_item post "body"); [discriminate |].
  destruct (dict_item post "url"); [discriminate |].
  cbn [item_then]. intros H. injection H as <-. eexists. reflexivity.
Qed.

Lemma comment_block_begins (i : Z) (comment : dict) (b : string) :
  comment_block py_str i comment = inr b -> begins_with "--- " b.
Proof.
  unfold comment_block.
  destruct (dict_item comment "body"); [discriminate |].
  destruct (dict_item comment "url"); [discriminate |].
  cbn [item_then]. intros H. injection H as <-. eexists. reflexivity.
Qed.

Lemma append_blocks_first (block : Z -> dict -> lookup_error + string)
    (e : dict) (entries : list dict) (i : Z) (text_data text : string) :
  append_blocks block i (e :: entries) text_data = inr text ->
  exists b, block i e = inr b /\ begins_with (text_data ++ b) text.
Proof.
  simpl. destruct (block i e) as [|b] eqn:Eb; [discriminate |].
  cbn [item_then]. intros H. exists b. split; [reflexivity |].
  now apply append_blocks_inr in H.
Qed.

Lemma begins_with_append (a b c : string) :
  begins_with b c -> begins_with (a ++ b) (a ++ c).
Proof. intros [x ->]. exists x. now rewrite append_assoc. Qed.

(** With a post or a comment, the first block follows the header. *)
Lemma build_prompt_first_block (posts comments : list dict) (text : string) :
  posts <> [] \/ comments <> [] ->
  build_prompt py_str instructions posts comments = inr text ->
  begins_with (instructions ++ newline ++ newline ++ data_header ++ "--- ")
    text.
Proof.
  unfold build_prompt. cbv zeta. intros Hne H.
  destruct (append_blocks (post_block py_str) 0 posts _) as [|t1] eqn:E1;
    [discriminate |].
  cbn [item_then] in H.
  destruct (append_blocks (comment_block py_str) 0 comments t1)
    as [|t2] eqn:E2; [discriminate |].
  cbn [item_then] in H. injection H as <-.
  assert (B : begins_with (data_header ++ "--- ") t2).
  { destruct posts as [|p posts].
    - destruct comments as [|c comments]; [destruct Hne; congruence |].
      simpl in E1. injection E1 as <-.
      apply append_blocks_first in E2 as (b & Hb & Hbeg).
      apply comment_block_begins in Hb as [x ->].
      eapply begins_with_trans; [| exact Hbeg].
      exists x. now rewrite append_assoc.
    - assert (E1' : append_blocks (post_block py_str) 0 (p :: posts)
                      data_header = inr t1) by (destruct comments; exact E1).
      apply append_blocks_first in E1' as (b & Hb & Hbeg).
      apply post_block_begins in Hb as [x ->].
      apply append_blocks_inr in E2 as [Hbeg2 _].
      eapply begins_with_trans; [| exact Hbeg2].
      eapply begins_with_trans; [| exact Hbeg].
      exists x. now rewrite append_assoc. }
  destruct B as [x ->]. exists x. now rewrite !append_assoc.
Qed.

(** X19.  [main] never ends on a [KeyError] of [build_prompt]; and when
    it runs the pipeline, the user name is the last segment of the
    profile URL and holds no slash, and the prompt sent has a first block
    right after the data header: the no-data notice of [build_prompt] is
    never sent, since [main] returns before when nothing was scraped. *)
Theorem main_sends_scraped_data (profile_url : string) :
  (forall e,
      main text_width py_str instructions json_loads redditor
        generate_content profile_url <> PromptRaised e)
  /\ (forall username prompt o,
        main text_width py_str instructions json_loads redditor
          generate_content profile_url = PipelineRun username prompt o ->
        username = extract_username profile_url
        /\ contains "/" username = false
        /\ begins_with
             (instructions ++ newline ++ newline ++ data_header ++ "--- ")
             prompt
        /\ o = main_tail text_width py_str json_loads
                 (generate_persona_with_gemini generate_content prompt)).
Proof.
  unfold main.
  destruct (negb (truthy (PStr profile_url)));
    [split; intros; discriminate |].
  cbv zeta.
  set (u := extract_username profile_url).
  pose proof (scraped_entries_have_keys (fst (redditor u)) (snd (redditor u)))
    as [Hp Hc].
  destruct (scrape_user_data (fst (redditor u)) (snd (redditor u)))
    as [posts comments].
  cbn [fst snd] in Hp, Hc.
  destruct (build_prompt_with_keys py_str instructions posts comments Hp Hc)
    as [text E].
  assert (Hfirst : posts <> [] \/ comments <> [] ->
                   begins_with
                     (instructions ++ newline ++ newline ++ data_header
                      ++ "--- ") text)
    by (intros Hne; now apply (build_prompt_first_block posts comments)).
  destruct posts as [|p posts]; [destruct comments as [|c comments] |].
  - split; intros; discriminate.
  - rewrite E. split; [intros; discriminate |].
    intros username prompt o H. injection H as <- <- <-.
    repeat split; [apply last_split_no_sep | apply Hfirst; right; discriminate].
  - rewrite E. split; [intros; discriminate |].
    intros username prompt o H. injection H as <- <- <-.
    repeat split; [apply last_split_no_sep | apply Hfirst; left; discriminate].
Qed.

End MainProperties.

Lemma main_sends_scraped_data_witness :
  exists prompt o,
    main fixed_pitch str_of_str "Describe the user." json_loads_model
      (fun _ =>
         ({| yielded := [ {| Submission.title := "Hello";
                             Submission.selftext := "World";
                             Submission.permalink := "/r/x/comments/1/hello/" |} ];
             raised := false |},
          {| yielded := []; raised := false |}))
      (fun _ => Some scenario_a)
      "https://www.reddit.com/user/spez/"
    = PipelineRun "spez" prompt o
    /\ begins_with
         ("Describe the user." ++ newline ++ newline ++ data_header ++ "--- ")
         prompt.
Proof.
  lazymatch goal with
  | |- exists prompt o, main ?tw ?ps ?ins ?jl ?R ?G ?url = _ /\ _ =>
      pose proof (proj2 (main_sends_scraped_data tw ps ins jl R G url)) as H
  end.
  eexists. eexists. split; [reflexivity |].
  exact (proj1 (proj2 (proj2 (H _ _ _ eq_refl)))).
Defined.
